(** * OTP-gated Linux password change: a shallow embedding of backend/server.py

    The handlers of [backend/server.py] are embedded as state-passing
    functions over an explicit server state (the in-memory rate-limit
    ledger, the [users] collection with the log of the writes made to it,
    and a log of the external effects the handlers trigger).  Every value
    the handlers obtain from outside the program (clock readings, random
    draws, the outcome of the privileged password change) is an explicit
    input, gathered in [Env].  Of the libraries, the parts that are plain
    string code (pyotp's [random_base32] and [provisioning_uri], urllib's
    quoting) are embedded; HMAC, Unicode normalisation, QR rendering and
    date formatting are parameters, gathered in [Libs]. *)

From Stdlib Require Import ZArith Lia Ascii.
From stdpp Require Import gmap strings list fin_maps sorting.

Local Open Scope Z_scope.

(** ** Values and dictionaries *)

(** Values found in the documents of the collection and in the
    dictionaries the handlers return.  [VTime] is a [datetime], as its
    number of microseconds since the epoch; [VObjectId] is the [_id] the
    driver gives a stored document. *)
Inductive value :=
  | VNone
  | VStr (s : string)
  | VBool (b : bool)
  | VTime (t : Z)
  | VObjectId (oid : string).

#[global] Instance value_eq_dec : EqDecision value.
Proof. solve_decision. Defined.

(** A Python [dict] with string keys. *)
Abbreviation dict := (gmap string value).

(** [Optional[...]] fields as dictionary values. *)
Definition opt_str (o : option string) : value :=
  match o with Some s => VStr s | None => VNone end.

Definition opt_time (o : option Z) : value :=
  match o with Some t => VTime t | None => VNone end.

(** ** Strings and datetimes of Python *)

(** [len] of a [str]: the number of code points, that is of the bytes of
    its UTF-8 encoding that are not continuation bytes. *)
Definition is_continuation (a : ascii) : bool :=
  (128 <=? nat_of_ascii a)%nat && (nat_of_ascii a <? 192)%nat.

Fixpoint len (s : string) : nat :=
  match s with
  | EmptyString => 0
  | String a rest => ((if is_continuation a then 0 else 1) + len rest)%nat
  end.

(** A [datetime] is aware (it carries a time zone, here always UTC) or
    naive; both as microseconds since the epoch. *)
Inductive datetime :=
  | Aware (us : Z)
  | Naive (us : Z).

(** Python exceptions that no handler catches. *)
Inductive PyError :=
  | TypeError
  | ValueError
  | DataOverflowError.

#[global] Instance PyError_eq_dec : EqDecision PyError.
Proof. solve_decision. Defined.

(** [a - b] on datetimes, as the microseconds of the [timedelta]:
    subtracting a naive from an aware datetime, or the reverse, raises
    [TypeError]. *)
Definition datetime_sub (a b : datetime) : PyError + Z :=
  match a, b with
  | Aware x, Aware y => inr (x - y)
  | Naive x, Naive y => inr (x - y)
  | _, _ => inl TypeError
  end.

(** [td.total_seconds() < seconds], on the microseconds of [td] *)
Definition total_seconds_lt (td seconds : Z) : bool :=
  bool_decide (td < seconds * 1000000).

(** The instant MongoDB keeps for a datetime: whole milliseconds. *)
Definition to_millis (t : Z) : Z := t / 1000 * 1000.

(** ** Models *)

(** A document of the [users] collection: the fields of
    [class User(BaseModel)] and the [_id] the driver adds on insertion.
    The field [id] is named [user_id].  The datetimes are the stored
    instants. *)
Record User := mkUser {
  _id : string;
  user_id : string;
  username : string;
  email : string;
  totp_secret : string;
  is_active : bool;
  created_at : Z;
  last_otp_used : option string;
  last_otp_time : option Z
}.

#[global] Instance User_eq_dec : EqDecision User.
Proof. solve_decision. Defined.

(** [class UserCreate(BaseModel)] *)
Record UserCreate := mkUserCreate {
  uc_username : string;
  uc_email : string
}.

(** [class PasswordChangeRequest(BaseModel)] *)
Record PasswordChangeRequest := mkPasswordChangeRequest {
  req_username : string;
  otp_code : string;
  new_password : string
}.

(** [class QRCodeResponse(BaseModel)] *)
Record QRCodeResponse := mkQRCodeResponse {
  qr_code_base64 : string;
  secret : string
}.

(** [user.dict()]: the fields of the model. *)
Definition User_dict (u : User) : dict :=
  <["id" := VStr (user_id u)]>
  (<["username" := VStr (username u)]>
  (<["email" := VStr (email u)]>
  (<["totp_secret" := VStr (totp_secret u)]>
  (<["is_active" := VBool (is_active u)]>
  (<["created_at" := VTime (created_at u)]>
  (<["last_otp_used" := opt_str (last_otp_used u)]>
  (<["last_otp_time" := opt_time (last_otp_time u)]> ∅))))))).

(** The document as [find] returns it: the fields and the [_id]. *)
Definition document (u : User) : dict :=
  <["_id" := VObjectId (_id u)]> (User_dict u).

(** ** Exceptions and results *)

Record HTTPException := mkHTTPException {
  status_code : Z;
  detail : string
}.

#[global] Instance HTTPException_eq_dec : EqDecision HTTPException.
Proof. solve_decision. Defined.

(** What a handler ends with: a returned value, a raised
    [HTTPException], or an exception nothing catches. *)
Inductive Result (A : Type) :=
  | Return (a : A)
  | Raise (e : HTTPException)
  | Crash (err : PyError).
Arguments Return {A} a.
Arguments Raise {A} e.
Arguments Crash {A} err.

(** The errors of the two entry points, with the names the specification
    gives them. *)
Definition RateLimited_register : HTTPException :=
  mkHTTPException 429 "Too many registration attempts. Please try again later.".
Definition DuplicateUsername : HTTPException :=
  mkHTTPException 400 "Username already exists".
Definition DuplicateEmail : HTTPException :=
  mkHTTPException 400 "Email already registered".
Definition UnknownIdentity : HTTPException :=
  mkHTTPException 400 "Linux user does not exist on the system".
Definition RateLimited_change : HTTPException :=
  mkHTTPException 429 "Too many password change attempts. Please try again later.".
Definition NotFound : HTTPException :=
  mkHTTPException 404 "User not found".
Definition Disabled : HTTPException :=
  mkHTTPException 400 "User account is disabled".
Definition InvalidCode : HTTPException :=
  mkHTTPException 400 "Invalid OTP code".
Definition ReplayedCode : HTTPException :=
  mkHTTPException 400 "OTP code already used recently".
Definition WeakCredential : HTTPException :=
  mkHTTPException 400 "Password must be at least 8 characters long".
Definition RotationFailed : HTTPException :=
  mkHTTPException 500 "Failed to change system password".
Definition RateLimited_qr : HTTPException :=
  mkHTTPException 429 "Too many QR code requests. Please try again later.".

(** ** Server state and the outside world *)

(** A task handed to [background_tasks.add_task(send_email_async, ...)].
    The HTML body is the fixed template of [register_user] instantiated
    with the username, so the task records the username. *)
Record EmailTask := mkEmailTask {
  to_email : string;
  subject : string;
  body_username : string;
  task_qr_code_base64 : string
}.

(** A write sent to the [users] collection: [insert_one] of a document,
    or [update_one] on a username with a [$set] of both replay fields. *)
Inductive DbWrite :=
  | InsertOne (doc : User)
  | UpdateOneSet (name : string) (last_otp_used : string) (last_otp_time : Z).

Record State := mkState {
  (** [rate_limit_storage = defaultdict(list)]; [time.time()] readings *)
  rate_limit_storage : gmap string (list Z);
  (** [db.users], in insertion order *)
  db_users : list User;
  (** the writes sent to [db.users], oldest first *)
  db_writes : list DbWrite;
  (** calls of [change_linux_password], oldest first *)
  passwd_calls : list (string * string);
  (** tasks added to [background_tasks], oldest first *)
  email_tasks : list EmailTask
}.

Definition initial_state : State := mkState ∅ [] [] [] [].

(** What one handler invocation reads from outside the program. *)
Record Env := mkEnv {
  (** [time.time()] in [check_rate_limit], in seconds *)
  time_time : Z;
  (** [datetime.now(timezone.utc)], in microseconds since the epoch *)
  utcnow : Z;
  (** the clock pyotp reads in [verify], in whole seconds since the epoch *)
  totp_clock : Z;
  (** [uuid.uuid4()] *)
  uuid4 : string;
  (** the draws of [random.choice] in [pyotp.random_base32()]: the index
      drawn for each position *)
  random_choice : nat → nat;
  (** the [ObjectId] the driver generates in [insert_one] *)
  object_id : string;
  (** whether the body of [change_linux_password] raises *)
  passwd_raises : bool
}.

(** The library functions taken as parameters. *)
Record Libs := mkLibs {
  (** pyotp [OTP.generate_otp] on a counter that is not negative: the
      HOTP value of a secret at a counter, six zero-padded decimal
      digits *)
  generate_otp : string → Z → string;
  (** [unicodedata.normalize("NFKC", s)] *)
  nfkc : string → string;
  (** qrcode rendering of a text to PNG, base64-encoded; [None] when the
      text exceeds the capacity of the largest symbol
      ([DataOverflowError]) *)
  qr_png_base64 : string → option string;
  (** [datetime.isoformat] of an aware UTC datetime *)
  isoformat : Z → string
}.

(** ** The handler monad: state passing with [raise] *)

Definition Handler (A : Type) : Type := State → State * Result A.

Definition ret {A} (a : A) : Handler A := λ st, (st, Return a).

Definition raise_exn {A} (e : HTTPException) : Handler A := λ st, (st, Raise e).

Notation "'raise' e" := (raise_exn e) (at level 10, e at level 9).

(** An exception of Python that propagates out of the handler. *)
Definition crash {A} (err : PyError) : Handler A := λ st, (st, Crash err).

Definition bind {A B} (c : Handler A) (k : A → Handler B) : Handler B :=
  λ st, match c st with
        | (st', Return a) => k a st'
        | (st', Raise e) => (st', Raise e)
        | (st', Crash err) => (st', Crash err)
        end.

Notation "'let*' x ':=' c 'in' k" := (bind c (λ x, k))
  (at level 10, x name, c at level 100, k at level 200).

(** [if cond: raise e] *)
Definition raise_if (cond : bool) (e : HTTPException) : Handler () :=
  if cond then raise e else ret ().

Notation "'when' cond 'raise' e ';;' k" := (bind (raise_if cond e) (λ _, k))
  (at level 10, cond at level 10, e at level 9, k at level 200).

(** The value of a library call that may raise. *)
Definition lift {A} (r : PyError + A) : Handler A :=
  match r with
  | inl err => crash err
  | inr a => ret a
  end.

(** ** Rate limiting *)

Definition MAX_ATTEMPTS_PER_HOUR : nat := 5.

(** The list [rate_limit_storage[identifier]]; a missing key reads as the
    empty list. *)
Definition attempts_of (st : State) (identifier : string) : list Z :=
  default [] (rate_limit_storage st !! identifier).

Definition set_attempts (identifier : string) (l : list Z) (st : State) : State :=
  mkState (<[identifier := l]> (rate_limit_storage st))
          (db_users st) (db_writes st) (passwd_calls st) (email_tasks st).

(** [check_rate_limit], with the reading of [time.time()] as argument. *)
Definition check_rate_limit (current_time : Z) (identifier : string)
  : State → State * bool :=
  λ st,
  let user_attempts :=
    filter (λ attempt_time, current_time - attempt_time < 3600)
           (attempts_of st identifier) in
  if decide (MAX_ATTEMPTS_PER_HOUR ≤ length user_attempts)%nat
  then (set_attempts identifier user_attempts st, false)
  else (set_attempts identifier (user_attempts ++ [current_time]) st, true).

Definition rate_limit (current_time : Z) (identifier : string) : Handler bool :=
  λ st, let '(st', ok) := check_rate_limit current_time identifier st in
        (st', Return ok).

(** A run of [check_rate_limit] calls, each an identifier with the clock
    reading of the call; the log records the decisions, oldest first. *)
Definition serve (acc : State * list (string * Z * bool)) (call : string * Z)
  : State * list (string * Z * bool) :=
  let '(st', ok) := check_rate_limit call.2 call.1 acc.1 in
  (st', acc.2 ++ [(call.1, call.2, ok)]).

Definition serve_all (calls : list (string * Z)) (st : State)
  : State * list (string * Z * bool) :=
  foldl serve (st, []) calls.

(** The clock readings at which [identifier] was admitted, oldest first. *)
Definition admitted (identifier : string) (log : list (string * Z * bool))
  : list Z :=
  omap (λ e : string * Z * bool,
          if decide (e.1.1 = identifier) then
            if e.2 then Some e.1.2 else None
          else None) log.

(** How many of the readings [ts] fall in the window [(T - 3600, T]]. *)
Definition count_in_window (T : Z) (ts : list Z) : nat :=
  length (filter (λ t, T - 3600 < t ∧ t ≤ T) ts).

(** ** Library code on strings *)

(** Applies [f] to every byte of [s] and joins the results. *)
Fixpoint string_bind (f : ascii → string) (s : string) : string :=
  match s with
  | EmptyString => EmptyString
  | String a rest => f a +:+ string_bind f rest
  end.

(** The alphabet of [pyotp.random_base32]. *)
Definition base32_chars : list ascii :=
  String.list_ascii_of_string "ABCDEFGHIJKLMNOPQRSTUVWXYZ234567".

(** [pyotp.random_base32()] with its default length of 32: the join of
    32 draws of [random.choice(chars)]. *)
Definition random_base32 (env : Env) : string :=
  String.string_of_list_ascii
    (map (λ i, nth (random_choice env i `mod` 32)%nat base32_chars "A"%char)
         (seq 0 32)).

(** urllib: the bytes never quoted, and [%XX]. *)
Definition always_safe (a : ascii) : bool :=
  let n := nat_of_ascii a in
  ((65 <=? n) && (n <=? 90) || (97 <=? n) && (n <=? 122)
   || (48 <=? n) && (n <=? 57)
   || (n =? 95) || (n =? 46) || (n =? 45) || (n =? 126))%nat.

Definition hex_digit (n : nat) : ascii :=
  nth n (String.list_ascii_of_string "0123456789ABCDEF") "0"%char.

Definition percent_encode (a : ascii) : string :=
  String "%" (String (hex_digit (nat_of_ascii a / 16))
             (String (hex_digit (nat_of_ascii a `mod` 16)) EmptyString)).

(** [urllib.parse.quote(s)], with its default [safe='/'] *)
Definition quote (s : string) : string :=
  string_bind (λ a, if always_safe a || bool_decide (a = "/"%char)
                    then String a EmptyString else percent_encode a) s.

(** [urllib.parse.quote_plus(s)]: a space becomes a plus sign *)
Definition quote_plus (s : string) : string :=
  string_bind (λ a, if bool_decide (a = " "%char) then "+"
                    else if always_safe a then String a EmptyString
                    else percent_encode a) s.

(** [urllib.parse.urlencode] of a dictionary, as its items in order *)
Fixpoint urlencode (items : list (string * string)) : string :=
  match items with
  | [] => ""
  | [(k, v)] => quote_plus k +:+ "=" +:+ quote_plus v
  | (k, v) :: rest => quote_plus k +:+ "=" +:+ quote_plus v +:+ "&" +:+ urlencode rest
  end.

(** [s.replace("+", "%20")] *)
Definition replace_plus (s : string) : string :=
  string_bind (λ a, if bool_decide (a = "+"%char) then "%20"
                    else String a EmptyString) s.

(** pyotp [utils.build_uri] as [TOTP.provisioning_uri] calls it, with
    SHA-1, six digits and a period of 30 seconds (the defaults, which add
    no parameter): [secret], [name], [issuer_name]. *)
Definition provisioning_uri (secret name issuer_name : string) : string :=
  let label := quote issuer_name +:+ ":" +:+ quote name in
  "otpauth://totp/" +:+ label +:+ "?" +:+
  replace_plus (urlencode [("secret", secret); ("issuer", issuer_name)]).

(** ** TOTP helpers *)

Section handlers.
Variable L : Libs.

(** [generate_totp_secret] *)
Definition generate_totp_secret (env : Env) : string := random_base32 env.

(** The URI built inside [generate_qr_code]. *)
Definition totp_uri (username secret : string) : string :=
  provisioning_uri secret (username +:+ "@linux-system") "Linux OTP System".

(** [generate_qr_code]: the rendering raises when the URI does not fit
    the largest QR symbol. *)
Definition generate_qr_code (username secret : string) : PyError + string :=
  match qr_png_base64 L (totp_uri username secret) with
  | Some png => inr png
  | None => inl DataOverflowError
  end.

(** pyotp [TOTP.timecode] with the default interval of 30 seconds:
    [int(seconds / 30)], which truncates. *)
Definition timecode (for_time : Z) : Z := for_time ÷ 30.

(** pyotp [TOTP.at(for_time, counter_offset)]: [generate_otp] raises
    [ValueError] on a negative counter. *)
Definition totp_at (secret : string) (for_time counter_offset : Z)
  : PyError + string :=
  let input := timecode for_time + counter_offset in
  if bool_decide (input < 0) then inl ValueError
  else inr (generate_otp L secret input).

(** pyotp [utils.strings_equal]: equality after NFKC normalisation *)
Definition strings_equal (s1 s2 : string) : bool :=
  bool_decide (nfkc L s1 = nfkc L s2).

(** The loop of pyotp [TOTP.verify] over the counter offsets. *)
Fixpoint verify_offsets (secret token : string) (for_time : Z)
    (offsets : list Z) : PyError + bool :=
  match offsets with
  | [] => inr false
  | i :: rest =>
      match totp_at secret for_time i with
      | inl err => inl err
      | inr code =>
          if strings_equal token code then inr true
          else verify_offsets secret token for_time rest
      end
  end.

(** [verify_totp]: pyotp [TOTP.verify(token, valid_window=1)] tries the
    counter offsets [range(-1, 2)] in order; the reading of the clock is
    an argument. *)
Definition verify_totp (now : Z) (secret token : string) : PyError + bool :=
  verify_offsets secret token now [-1; 0; 1].

(** ** Linux system helpers *)

(** [check_linux_user_exists] (test mode) *)
Definition check_linux_user_exists (username : string) : bool :=
  let test_users := ["testuser"; "demo"; "test"; username] in
  bool_decide (username ∈ test_users) || bool_decide (3 < len username)%nat.

(** [change_linux_password] (test mode): logs and sleeps inside a [try];
    it returns [False] exactly when that body raises. *)
Definition change_linux_password (env : Env) (username new_password : string)
  : Handler bool :=
  λ st, (mkState (rate_limit_storage st) (db_users st) (db_writes st)
                 (passwd_calls st ++ [(username, new_password)])
                 (email_tasks st),
         Return (negb (passwd_raises env))).

(** ** The [users] collection *)

(** [db.users.find_one({"username": username})] *)
Definition find_one_username (name : string) : Handler (option User) :=
  λ st, (st, Return (List.find (λ u, bool_decide (username u = name)) (db_users st))).

(** [db.users.find_one({"email": email})] *)
Definition find_one_email (mail : string) : Handler (option User) :=
  λ st, (st, Return (List.find (λ u, bool_decide (email u = mail)) (db_users st))).

(** The document the collection keeps for an inserted one: datetimes in
    whole milliseconds. *)
Definition stored (u : User) : User :=
  mkUser (_id u) (user_id u) (username u) (email u) (totp_secret u)
         (is_active u) (to_millis (created_at u)) (last_otp_used u)
         (to_millis <$> last_otp_time u).

(** [db.users.insert_one(doc)] *)
Definition insert_one (u : User) : Handler () :=
  λ st, (mkState (rate_limit_storage st) (db_users st ++ [stored u])
                 (db_writes st ++ [InsertOne u])
                 (passwd_calls st) (email_tasks st),
         Return ()).

Definition set_last_otp (code : string) (time : Z) (u : User) : User :=
  mkUser (_id u) (user_id u) (username u) (email u) (totp_secret u)
         (is_active u) (created_at u) (Some code) (Some (to_millis time)).

(** The first document matching [{"username": name}] is rewritten. *)
Fixpoint update_first (name : string) (f : User → User) (users : list User)
  : list User :=
  match users with
  | [] => []
  | u :: rest =>
      if bool_decide (username u = name) then f u :: rest
      else u :: update_first name f rest
  end.

(** [db.users.update_one({"username": name},
      {"$set": {"last_otp_used": code, "last_otp_time": time}})] *)
Definition update_one_last_otp (name code : string) (time : Z) : Handler () :=
  λ st, (mkState (rate_limit_storage st)
                 (update_first name (set_last_otp code time) (db_users st))
                 (db_writes st ++ [UpdateOneSet name code time])
                 (passwd_calls st) (email_tasks st),
         Return ()).

(** [background_tasks.add_task(send_email_async, ...)] *)
Definition add_task (t : EmailTask) : Handler () :=
  λ st, (mkState (rate_limit_storage st) (db_users st) (db_writes st)
                 (passwd_calls st) (email_tasks st ++ [t]),
         Return ()).

(** ** API routes *)

(** [POST /register].  The record [user] carries the [_id] the driver
    gives the document on insertion. *)
Definition register_user (env : Env) (user_data : UserCreate) : Handler dict :=
  let* ok := rate_limit (time_time env) ("register_" +:+ uc_email user_data) in
  when negb ok raise RateLimited_register ;;
  let* existing_user := find_one_username (uc_username user_data) in
  when bool_decide (is_Some existing_user) raise DuplicateUsername ;;
  let* existing_email := find_one_email (uc_email user_data) in
  when bool_decide (is_Some existing_email) raise DuplicateEmail ;;
  when negb (check_linux_user_exists (uc_username user_data))
    raise UnknownIdentity ;;
  let totp_secret := generate_totp_secret env in
  let* qr_code_base64 :=
    lift (generate_qr_code (uc_username user_data) totp_secret) in
  let user := mkUser (object_id env) (uuid4 env) (uc_username user_data)
                     (uc_email user_data) totp_secret true (utcnow env)
                     None None in
  let* _ := insert_one user in
  let* _ := add_task (mkEmailTask (uc_email user_data)
                                  "Linux OTP Sistemi - QR Kodu"
                                  (uc_username user_data) qr_code_base64) in
  ret (<["status" := VStr "success"]>
       (<["message" := VStr "User registered successfully. QR code sent to email."]>
       (<["username" := VStr (uc_username user_data)]> ∅))).

(** [POST /change-password].  [current_time] is aware; the datetimes of
    the document read from the collection are naive, the client being
    built without [tz_aware]. *)
Definition change_password (env : Env) (request : PasswordChangeRequest)
  : Handler dict :=
  let* ok := rate_limit (time_time env) ("change_pass_" +:+ req_username request) in
  when negb ok raise RateLimited_change ;;
  let* user := find_one_username (req_username request) in
  match user with
  | None => raise NotFound
  | Some user =>
    when negb (is_active user) raise Disabled ;;
    let* verified :=
      lift (verify_totp (totp_clock env) (totp_secret user) (otp_code request)) in
    when negb verified raise InvalidCode ;;
    let current_time := Aware (utcnow env) in
    let last_otp := last_otp_used user in
    let last_time := Naive <$> last_otp_time user in
    let* _ :=
      (if bool_decide (last_otp = Some (otp_code request)) then
         match last_time with
         | Some last_time =>
             let* time_diff := lift (datetime_sub current_time last_time) in
             raise_if (total_seconds_lt time_diff 30) ReplayedCode
         | None => ret ()
         end
       else ret ()) in
    when bool_decide (len (new_password request) < 8)%nat
      raise WeakCredential ;;
    let* success := change_linux_password env (req_username request)
                                          (new_password request) in
    when negb success raise RotationFailed ;;
    let* _ := update_one_last_otp (req_username request) (otp_code request)
                                  (utcnow env) in
    ret (<["status" := VStr "success"]>
         (<["message" := VStr "Password changed successfully"]>
         (<["timestamp" := VStr (isoformat L (utcnow env))]> ∅)))
  end.

(** [GET /user/{username}/qr-code] *)
Definition get_qr_code (env : Env) (username : string) : Handler QRCodeResponse :=
  let* ok := rate_limit (time_time env) ("qr_code_" +:+ username) in
  when negb ok raise RateLimited_qr ;;
  let* user := find_one_username username in
  match user with
  | None => raise NotFound
  | Some user =>
    let* qr_code_base64 := lift (generate_qr_code username (totp_secret user)) in
    ret (mkQRCodeResponse qr_code_base64 (totp_secret user))
  end.

(** [GET /users]: [find().to_list(1000)], then two keys are popped from
    every document. *)
Definition get_users : Handler (list dict) :=
  λ st,
  let users := take 1000 (db_users st) in
  (st, Return (map (λ user, delete "last_otp_used"
                              (delete "totp_secret" (document user))) users)).

End handlers.

(** ** A fixture for the parameters

    Stand-ins with the shape of the real libraries, used to run the
    handlers on concrete requests. *)

Definition digit_of (n : Z) : string :=
  match n with
  | 0 => "0" | 1 => "1" | 2 => "2" | 3 => "3" | 4 => "4"
  | 5 => "5" | 6 => "6" | 7 => "7" | 8 => "8" | _ => "9"
  end.

(** The last [width] decimal digits of [n], zero-padded. *)
Fixpoint zfill (width : nat) (n : Z) : string :=
  match width with
  | O => ""
  | S w => zfill w (n / 10) +:+ digit_of (n mod 10)
  end.

(** NFKC on the strings of the examples: a full-width digit (the bytes
    EF BC 90 to EF BC 99) becomes the ASCII digit, every other byte
    stays. *)
Fixpoint fold_fullwidth_digits (s : string) : string :=
  match s with
  | EmptyString => EmptyString
  | String a rest =>
      match rest with
      | String b (String c rest') =>
          if bool_decide (nat_of_ascii a = 239 ∧ nat_of_ascii b = 188 ∧
                          144 ≤ nat_of_ascii c ≤ 153)%nat
          then String (ascii_of_nat (nat_of_ascii c - 96)) (fold_fullwidth_digits rest')
          else String a (fold_fullwidth_digits rest)
      | _ => String a (fold_fullwidth_digits rest)
      end
  end.

Definition fixture_libs : Libs :=
  mkLibs
    (λ secret counter,
       zfill 6 (Z.of_nat (String.length secret) * 7919 + counter * 104729))
    fold_fullwidth_digits
    (λ data, if decide (String.length data ≤ 2331)%nat
             then Some ("png:" +:+ data) else None)
    (λ t, "utc:" +:+ zfill 16 t).

(** Five registration attempts for one e-mail address within a minute,
    and the same run with another address and a sixth attempt mixed in. *)
Definition burst_calls : list (string * Z) :=
  [("register_a@x.com", 0); ("register_a@x.com", 10);
   ("register_a@x.com", 20); ("register_a@x.com", 30);
   ("register_a@x.com", 40)].

Definition mixed_calls : list (string * Z) :=
  [("register_a@x.com", 0); ("register_b@y.com", 5);
   ("register_a@x.com", 10); ("register_a@x.com", 20);
   ("register_a@x.com", 30); ("register_a@x.com", 40);
   ("register_a@x.com", 50)].

(** The draws that make [random_base32] return [alice_secret]. *)
Definition alice_draws (i : nat) : nat :=
  nth i [9; 1; 18; 22; 24; 27; 3; 15; 4; 7; 15; 10; 27; 15; 23; 15;
         9; 1; 18; 22; 24; 27; 3; 15; 4; 7; 15; 10; 27; 15; 23; 15]%nat 0%nat.

Definition alice_secret : string := "JBSWY3DPEHPK3PXPJBSWY3DPEHPK3PXP".

Definition alice : User :=
  mkUser "65a0" "0001" "alice" "a@x.com" alice_secret true 1700000000123000
         None None.

(** ** Specification-level notions *)

(** The invariant of a run, for one identifier: its ledger is the list of
    its admitted readings pruned at some earlier reading of the clock; no
    window of an hour holds more than five of them. *)
Definition ledger_inv (identifier : string)
    (acc : State * list (string * Z * bool)) (clock : Z) : Prop :=
  (∃ pruned_at, pruned_at ≤ clock ∧
     attempts_of acc.1 identifier =
       filter (λ t, pruned_at - t < 3600) (admitted identifier acc.2)) ∧
  (∀ T, (count_in_window T (admitted identifier acc.2) ≤ 5)%nat) ∧
  (length (attempts_of acc.1 identifier) ≤ 5)%nat.

(** The submitted code is the one the account holds as last used, with a
    time: the case in which [change_password] computes the age of that
    code. *)
Definition reuses_last_code (user : User) (code : string) : bool :=
  bool_decide (last_otp_used user = Some code)
  && bool_decide (is_Some (last_otp_time user)).

(** The state after the rate-limit check of a password change, the
    decision of that check, and the account the handler then loads. *)
Definition after_limit (env : Env) (request : PasswordChangeRequest)
    (st : State) : State :=
  (check_rate_limit (time_time env) ("change_pass_" +:+ req_username request) st).1.

Definition limit_ok (env : Env) (request : PasswordChangeRequest)
    (st : State) : bool :=
  (check_rate_limit (time_time env) ("change_pass_" +:+ req_username request) st).2.

Definition lookup_account (request : PasswordChangeRequest) (st : State)
  : option User :=
  List.find (λ u, bool_decide (username u = req_username request)) (db_users st).

(** [last_otp_used] and [last_otp_time] are both null or both set. *)
Definition replay_pair_ok (u : User) : Prop :=
  is_Some (last_otp_used u) ↔ is_Some (last_otp_time u).

#[global] Instance replay_pair_ok_dec (u : User) : Decision (replay_pair_ok u).
Proof. unfold replay_pair_ok. apply _. Defined.

(** The document a successful registration sends to the collection, the
    account it leaves there, and its response. *)
Definition inserted_document (env : Env) (user_data : UserCreate) : User :=
  mkUser (object_id env) (uuid4 env) (uc_username user_data)
         (uc_email user_data) (random_base32 env) true (utcnow env) None None.

Definition new_account (env : Env) (user_data : UserCreate) : User :=
  mkUser (object_id env) (uuid4 env) (uc_username user_data)
         (uc_email user_data) (random_base32 env) true
         (to_millis (utcnow env)) None None.

Definition register_response (user_data : UserCreate) : dict :=
  <["status" := VStr "success"]>
  (<["message" := VStr "User registered successfully. QR code sent to email."]>
  (<["username" := VStr (uc_username user_data)]> ∅)).

(** The e-mail task [register_user] queues for an account: to its
    address, for its username, with the QR code of its provisioning URI
    (the empty string standing for a code that cannot be rendered). *)
Definition task_for (L : Libs) (u : User) : EmailTask :=
  mkEmailTask (email u) "Linux OTP Sistemi - QR Kodu" (username u)
    (default "" (qr_png_base64 L (totp_uri (username u) (totp_secret u)))).

(** The QR code of the provisioning URI of an account can be rendered. *)
Definition qr_renders (L : Libs) (name secret : string) : Prop :=
  is_Some (qr_png_base64 L (totp_uri name secret)).

(** The replay fields of the stored accounts, in insertion order. *)
Definition replay_fields (st : State)
  : list (string * option string * option Z) :=
  map (λ u, (username u, last_otp_used u, last_otp_time u)) (db_users st).

(** The requests the routes serve, each with what its handler reads from
    outside, and the state after serving one or a sequence of them. *)
Inductive Request :=
  | ReqRegister (env : Env) (user_data : UserCreate)
  | ReqChangePassword (env : Env) (request : PasswordChangeRequest)
  | ReqQrCode (env : Env) (username : string)
  | ReqUsers.

Definition handle (L : Libs) (r : Request) (st : State) : State :=
  match r with
  | ReqRegister env user_data => (register_user L env user_data st).1
  | ReqChangePassword env request => (change_password L env request st).1
  | ReqQrCode env username => (get_qr_code L env username st).1
  | ReqUsers => (get_users st).1
  end.

Definition run (L : Libs) (reqs : list Request) (st : State) : State :=
  foldl (λ st r, handle L r st) st reqs.

(** ** Notions for the routes as a whole *)

(** The status FastAPI answers with: 200 for a returned value (one that
    the response encoder accepts, as the dictionaries of strings and the
    [QRCodeResponse] are), the status code of a raised [HTTPException],
    500 for any other exception. *)
Definition http_status {A} (r : Result A) : Z :=
  match r with
  | Return _ => 200
  | Raise e => status_code e
  | Crash _ => 500
  end.

(** The JSON encoder of the response has no encoding for an [ObjectId]. *)
Definition json_encodable (v : value) : bool :=
  match v with
  | VObjectId _ => false
  | _ => true
  end.

(** The stored account [find_one] yields for a username or an e-mail
    address. *)
Definition by_username (name : string) (st : State) : option User :=
  List.find (λ u, bool_decide (username u = name)) (db_users st).

Definition by_email (mail : string) (st : State) : option User :=
  List.find (λ u, bool_decide (email u = mail)) (db_users st).

(** The decision of the rate limiter for a registration and for a QR code
    request. *)
Definition register_limit_ok (env : Env) (user_data : UserCreate)
    (st : State) : bool :=
  (check_rate_limit (time_time env) ("register_" +:+ uc_email user_data) st).2.

Definition qr_limit_ok (env : Env) (name : string) (st : State) : bool :=
  (check_rate_limit (time_time env) ("qr_code_" +:+ name) st).2.

(** The fields of an account other than the two replay fields. *)
Definition account_identity (u : User)
  : string * string * string * string * string * bool * Z :=
  (_id u, user_id u, username u, email u, totp_secret u, is_active u,
   created_at u).

(** No two stored accounts share a username or an e-mail address. *)
Definition unique_accounts (st : State) : Prop :=
  NoDup (map username (db_users st)) ∧ NoDup (map email (db_users st)).

(** A recorded password change names a stored account and a password of
    at least 8 characters. *)
Definition passwd_call_ok (st : State) (call : string * string) : Prop :=
  is_Some (by_username call.1 st) ∧ (8 ≤ len call.2)%nat.

(** All the checks of [change_password] before the password change
    itself pass: the call is admitted, the account is found and active,
    the code verifies and is not the one the account holds as last used,
    and the password has 8 characters or more. *)
Definition checks_pass (L : Libs) (env : Env) (request : PasswordChangeRequest)
    (st : State) : bool :=
  limit_ok env request st &&
  match lookup_account request st with
  | Some user =>
      is_active user
      && bool_decide (verify_totp L (totp_clock env) (totp_secret user)
                        (otp_code request) = inr true)
      && negb (reuses_last_code user (otp_code request))
      && bool_decide (8 ≤ len (new_password request))%nat
  | None => false
  end.

(** Two requests are served by the same route. *)
Definition same_route (r1 r2 : Request) : bool :=
  match r1, r2 with
  | ReqRegister _ _, ReqRegister _ _ => true
  | ReqChangePassword _ _, ReqChangePassword _ _ => true
  | ReqQrCode _ _, ReqQrCode _ _ => true
  | ReqUsers, ReqUsers => true
  | _, _ => false
  end.

(** The identifier and the clock reading a request presents to the rate
    limiter; the accounts listing presents none. *)
Definition limiter_call (r : Request) : option (string * Z) :=
  match r with
  | ReqRegister env user_data =>
      Some ("register_" +:+ uc_email user_data, time_time env)
  | ReqChangePassword env request =>
      Some ("change_pass_" +:+ req_username request, time_time env)
  | ReqQrCode env username => Some ("qr_code_" +:+ username, time_time env)
  | ReqUsers => None
  end.

(** The HTTP status a request is answered with.  The list [get_users]
    returns is answered 200 when every value of every document can be
    encoded, 500 otherwise. *)
Definition status_of (L : Libs) (r : Request) (st : State) : Z :=
  match r with
  | ReqRegister env user_data => http_status (register_user L env user_data st).2
  | ReqChangePassword env request => http_status (change_password L env request st).2
  | ReqQrCode env username => http_status (get_qr_code L env username st).2
  | ReqUsers =>
      match (get_users st).2 with
      | Return docs =>
          if forallb (λ d : dict,
                        bool_decide (map_Forall (λ _ v, json_encodable v = true) d))
                     docs
          then 200 else 500
      | Raise e => status_code e
      | Crash _ => 500
      end
  end.

(** ** The test client of backend_test.py *)

(** The counters of [OTPSystemTester]. *)
Record Tester := mkTester {
  tests_run : nat;
  tests_passed : nat
}.

(** [OTPSystemTester.__init__] *)
Definition new_tester : Tester := mkTester 0 0.

(** [log_test]: counts the test, counts it as passed on success, and
    returns the success flag. *)
Definition log_test (success : bool) (t : Tester) : Tester * bool :=
  (mkTester (S (tests_run t))
            (if success then S (tests_passed t) else tests_passed t),
   success).

(** The loop of [test_rate_limiting_registration] against the modelled
    server: the requests of [range(6)] are sent in turn; among the first
    five a 429 breaks the loop, from the sixth on a 429 is the success of
    the test; leaving the loop otherwise is its failure. *)
Fixpoint rate_limit_loop (L : Libs) (i : nat) (requests : list Request)
    (st : State) : State * bool :=
  match requests with
  | [] => (st, false)
  | r :: rest =>
      let status := status_of L r st in
      let st' := handle L r st in
      if bool_decide (i < 5)%nat then
        if bool_decide (status = 429) then (st', false)
        else rate_limit_loop L (S i) rest st'
      else
        if bool_decide (status = 429) then (st', true)
        else rate_limit_loop L (S i) rest st'
  end.

Definition test_rate_limiting_registration (L : Libs) (requests : list Request)
    (st : State) (t : Tester) : State * Tester * bool :=
  let '(st', success) := rate_limit_loop L 0 requests st in
  let '(t', passed) := log_test success t in
  (st', t', passed).

(** ** A session of alice

    Alice enrols at second 1700000000 and changes her password at once
    with the code of that time step, "516922"; [later] is a call ten
    seconds after, when "516922", "621651" and "726380" are the codes of
    the previous, the current and the next time step. *)

Definition enroll_env : Env :=
  mkEnv 1700000000 1700000000123456 1700000000 "0001" alice_draws "65a0" false.

Definition later (raises : bool) : Env :=
  mkEnv 1700000010 1700000010123456 1700000010 "0002" alice_draws "65a1" raises.

Definition enrolled : State :=
  run fixture_libs [ReqRegister enroll_env (mkUserCreate "alice" "a@x.com")]
      initial_state.

Definition alice_rotated : User :=
  set_last_otp "516922" 1700000000123456 alice.

Definition rotated : State :=
  run fixture_libs
      [ReqChangePassword enroll_env
         (mkPasswordChangeRequest "alice" "516922" "longenough1")]
      enrolled.

(** Five wrong guesses of alice's code in five consecutive seconds, and
    a second account. *)
Definition guess (n : Z) : Request :=
  ReqChangePassword
    (mkEnv (1700000010 + n) 1700000010000000 1700000010 "" alice_draws "" false)
    (mkPasswordChangeRequest "alice" "000000" "longenough1").

Definition five_guesses : list Request := map guess [0; 1; 2; 3; 4].

Definition bob_env : Env :=
  mkEnv 1700000005 1700000005000000 1700000005 "0003" (λ i, i) "65a2" false.

Definition two_accounts : State :=
  run fixture_libs [ReqRegister bob_env (mkUserCreate "bob" "b@y.com")] enrolled.

(** A call 30 seconds after [later]: "621651" is then the code of the
    previous time step. *)
Definition half_minute_later : Env :=
  mkEnv 1700000040 1700000040000000 1700000040 "0004" alice_draws "65a3" false.

(** The six registrations of the rate-limit test: six usernames, one
    e-mail address, one second apart. *)
Definition ratetest (n : Z) (name : string) : Request :=
  ReqRegister
    (mkEnv (1700000100 + n) 1700000100000000 1700000100 "0005" alice_draws
           "65a4" false)
    (mkUserCreate name "ratelimit@example.com").

Definition six_registrations : list Request :=
  [ratetest 0 "ratetest_0"; ratetest 1 "ratetest_1"; ratetest 2 "ratetest_2";
   ratetest 3 "ratetest_3"; ratetest 4 "ratetest_4"; ratetest 5 "ratetest_5"].

(** * Properties *)

(** Unfolds the monadic plumbing of a handler applied to a state. *)
Ltac unfold_handler :=
  unfold bind, raise_if, raise_exn, crash, lift, ret, rate_limit,
    find_one_username, find_one_email, insert_one, add_task,
    update_one_last_otp, change_linux_password in *.

(** ** The rate limiter touches its ledger only *)

Lemma check_rate_limit_frame (now : Z) (identifier : string) (st : State) :
  db_users (check_rate_limit now identifier st).1 = db_users st ∧
  passwd_calls (check_rate_limit now identifier st).1 = passwd_calls st ∧
  email_tasks (check_rate_limit now identifier st).1 = email_tasks st ∧
  db_writes (check_rate_limit now identifier st).1 = db_writes st.
Proof.
  unfold check_rate_limit. case_decide; simpl; auto.
Qed.

Lemma check_rate_limit_other (now : Z) (identifier other : string) (st : State) :
  identifier ≠ other →
  attempts_of (check_rate_limit now identifier st).1 other = attempts_of st other.
Proof.
  intros Hne. unfold check_rate_limit, attempts_of.
  case_decide; simpl; by rewrite lookup_insert_ne.
Qed.

(** ** The rate limiter *)

Section rate_limiter.
Implicit Types (st : State) (identifier : string) (now : Z) (l : list Z).

Lemma attempts_of_set identifier l st :
  attempts_of (set_attempts identifier l st) identifier = l.
Proof. unfold attempts_of, set_attempts; simpl. by rewrite lookup_insert_eq. Qed.

(** One call, observed on the ledger of the identifier. *)
Lemma check_rate_limit_step now identifier st :
  let kept := filter (λ t, now - t < 3600) (attempts_of st identifier) in
  let st' := (check_rate_limit now identifier st).1 in
  ((check_rate_limit now identifier st).2 = false ↔ (5 ≤ length kept)%nat) ∧
  ((check_rate_limit now identifier st).2 = false →
     attempts_of st' identifier = kept) ∧
  ((check_rate_limit now identifier st).2 = true →
     attempts_of st' identifier = kept ++ [now]).
Proof.
  unfold check_rate_limit, MAX_ATTEMPTS_PER_HOUR. simpl.
  case_decide; simpl; rewrite attempts_of_set; intuition (done || lia).
Qed.

(** When every recorded attempt is younger than an hour nothing is
    dropped, and the call is decided by the length of the ledger. *)
Lemma check_rate_limit_young now identifier st :
  Forall (λ t, now - t < 3600) (attempts_of st identifier) →
  check_rate_limit now identifier st =
    if decide (5 ≤ length (attempts_of st identifier))%nat
    then (set_attempts identifier (attempts_of st identifier) st, false)
    else (set_attempts identifier (attempts_of st identifier ++ [now]) st, true).
Proof.
  intros Hyoung. unfold check_rate_limit, MAX_ATTEMPTS_PER_HOUR.
  assert (Hkeep : filter (λ t, now - t < 3600) (attempts_of st identifier)
                  = attempts_of st identifier).
  { induction Hyoung as [|t l Ht _ IH]; [done|].
    by rewrite filter_cons_True, IH. }
  by rewrite Hkeep.
Qed.

Lemma length_filter_mono (P Q : Z → Prop)
    `{!∀ x, Decision (P x), !∀ x, Decision (Q x)} l :
  (∀ x, P x → Q x) → (length (filter P l) ≤ length (filter Q l))%nat.
Proof.
  intros HPQ. rewrite <-(list_filter_filter_l P Q l HPQ). apply length_filter.
Qed.

Lemma admitted_snoc identifier (log : list (string * Z * bool)) (e : string * Z * bool) :
  admitted identifier (log ++ [e]) =
  admitted identifier log ++
    (if decide (e.1.1 = identifier) then if e.2 then [e.1.2] else [] else []).
Proof.
  unfold admitted. rewrite omap_app. f_equal. simpl.
  case_decide; [destruct e.2|]; done.
Qed.

Lemma count_in_window_snoc (T t : Z) l :
  count_in_window T (l ++ [t]) =
  (count_in_window T l + (if decide (T - 3600 < t ∧ t ≤ T)%Z then 1 else 0))%nat.
Proof.
  unfold count_in_window. rewrite filter_app, length_app. f_equal.
  rewrite filter_cons, filter_nil. by case_decide.
Qed.

Lemma serve_ledger_inv identifier acc clock (call : string * Z) :
  ledger_inv identifier acc clock → clock ≤ call.2 →
  ledger_inv identifier (serve acc call) call.2.
Proof.
  destruct acc as [st log], call as [who now]. simpl.
  intros ([c0 [Hc0 Hled]] & Hwin & Hlen) Hclock. simpl in *.
  unfold serve. simpl.
  destruct (check_rate_limit now who st) as [st' ok] eqn:Hcall. simpl.
  destruct (decide (who = identifier)) as [->|Hne].
  - pose proof (check_rate_limit_step now identifier st) as (Hdec & Hden & Hadm).
    rewrite Hcall in Hdec, Hden, Hadm. simpl in *.
    assert (Hprune : filter (λ t, (now - t < 3600)%Z) (attempts_of st identifier)
                     = filter (λ t, (now - t < 3600)%Z) (admitted identifier log)).
    { rewrite Hled. apply list_filter_filter_l. intros t. lia. }
    unfold ledger_inv. simpl. rewrite admitted_snoc. simpl.
    rewrite decide_True by done.
    destruct ok.
    + assert (Hfew : (length (filter (λ t, (now - t < 3600)%Z)
                                (admitted identifier log)) < 5)%nat).
      { rewrite <-Hprune. destruct Hdec as [_ Hdec].
        destruct (decide (5 ≤ length (filter (λ t, (now - t < 3600)%Z)
                                        (attempts_of st identifier)))%nat);
          [by specialize (Hdec ltac:(done))|lia]. }
      split; [|split].
      * exists now. split; [lia|].
        rewrite Hadm by done. rewrite Hprune, filter_app. f_equal.
        by rewrite filter_cons_True by lia.
      * intros T. rewrite count_in_window_snoc. case_decide as HT.
        -- assert ((count_in_window T (admitted identifier log)
                    ≤ length (filter (λ t, (now - t < 3600)%Z)
                                (admitted identifier log)))%nat).
           { apply length_filter_mono. intros t. lia. }
           lia.
        -- specialize (Hwin T). lia.
      * rewrite Hadm by done. rewrite Hprune, length_app. simpl. lia.
    + rewrite app_nil_r. split; [|split].
      * exists now. split; [lia|]. rewrite Hden by done. exact Hprune.
      * exact Hwin.
      * rewrite Hden by done.
        pose proof (length_filter (λ t, (now - t < 3600)%Z)
                      (attempts_of st identifier)). lia.
  - assert (Hsame : attempts_of st' identifier = attempts_of st identifier).
    { replace st' with (check_rate_limit now who st).1 by by rewrite Hcall.
      by apply check_rate_limit_other. }
    unfold ledger_inv. simpl. rewrite admitted_snoc. simpl.
    rewrite decide_False by done. rewrite app_nil_r, Hsame.
    split; [|done]. exists c0. split; [lia|done].
Qed.

Lemma serve_all_ledger_inv identifier (calls : list (string * Z)) :
  ∀ acc clock,
    ledger_inv identifier acc clock →
    Forall (λ call, clock ≤ call.2) calls →
    StronglySorted Z.le (calls.*2) →
    ∃ clock', ledger_inv identifier (foldl serve acc calls) clock'.
Proof.
  induction calls as [|call calls IH]; intros acc clock Hinv Hge Hsorted.
  - by exists clock.
  - simpl. rewrite fmap_cons in Hsorted.
    apply StronglySorted_cons in Hsorted as [Hle Hsorted].
    apply Forall_cons in Hge as [Hcall _].
    apply (IH _ call.2); [by apply (serve_ledger_inv _ _ clock)| |done].
    rewrite Forall_fmap in Hle. eapply Forall_impl; [exact Hle|]. done.
Qed.

Lemma ledger_inv_start identifier st clock :
  attempts_of st identifier = [] → ledger_inv identifier (st, []) clock.
Proof.
  intros Hempty. unfold ledger_inv. simpl. rewrite Hempty. simpl.
  split; [|split; [intros T; unfold count_in_window; simpl|]; lia].
  exists clock. split; [lia|done].
Qed.

End rate_limiter.

Lemma serve_admit (st : State) (log : list (string * Z * bool))
    (identifier : string) (now : Z) (l : list Z) :
  attempts_of st identifier = l →
  Forall (λ t, now - t < 3600) l →
  (length l < 5)%nat →
  serve (st, log) (identifier, now) =
    (set_attempts identifier (l ++ [now]) st, log ++ [(identifier, now, true)]).
Proof.
  intros <- Hyoung Hlen. unfold serve. cbn [fst snd].
  rewrite check_rate_limit_young by done. by rewrite decide_False by lia.
Qed.

Lemma serve_deny (st : State) (log : list (string * Z * bool))
    (identifier : string) (now : Z) (l : list Z) :
  attempts_of st identifier = l →
  Forall (λ t, now - t < 3600) l →
  (5 ≤ length l)%nat →
  serve (st, log) (identifier, now) =
    (set_attempts identifier l st, log ++ [(identifier, now, false)]).
Proof.
  intros <- Hyoung Hlen. unfold serve. cbn [fst snd].
  rewrite check_rate_limit_young by done. by rewrite decide_True by lia.
Qed.

(** C3: the rate limiter, for every identifier.  (1) A call first keeps
    only the recorded readings less than 3600 seconds old (so every
    reading older than 3600 seconds is dropped), denies without recording
    the call when five or more remain, and otherwise records the reading
    of the call and admits.  (2) Over any run of calls with a clock that
    never goes back, started with an empty ledger, no window of 3600
    seconds holds more than five admitted calls.  (3) Six calls inside
    one window: five are admitted and the sixth is denied.  (4) As soon
    as the oldest recorded reading is 3600 seconds old or older, the next
    call is admitted. *)
Theorem rate_limit_five_per_hour (identifier : string) :
  (∀ (now : Z) (st : State),
     let kept := filter (λ t, now - t < 3600) (attempts_of st identifier) in
     let res := check_rate_limit now identifier st in
     (res.2 = false ↔ (5 ≤ length kept)%nat) ∧
     (res.2 = false → attempts_of res.1 identifier = kept) ∧
     (res.2 = true → attempts_of res.1 identifier = kept ++ [now]) ∧
     (∀ t, t ∈ attempts_of res.1 identifier → now - t < 3600)) ∧
  (∀ (calls : list (string * Z)) (st : State) (T : Z),
     attempts_of st identifier = [] →
     StronglySorted Z.le (calls.*2) →
     (count_in_window T (admitted identifier (serve_all calls st).2) ≤ 5)%nat) ∧
  (∀ (st : State) (t1 t2 t3 t4 t5 t6 : Z),
     attempts_of st identifier = [] →
     t1 ≤ t2 → t2 ≤ t3 → t3 ≤ t4 → t4 ≤ t5 → t5 ≤ t6 → t6 - t1 < 3600 →
     (serve_all [(identifier, t1); (identifier, t2); (identifier, t3);
                 (identifier, t4); (identifier, t5); (identifier, t6)] st).2 =
     [(identifier, t1, true); (identifier, t2, true); (identifier, t3, true);
      (identifier, t4, true); (identifier, t5, true); (identifier, t6, false)]) ∧
  (∀ (calls : list (string * Z)) (st : State) (now oldest : Z) (rest : list Z),
     attempts_of st identifier = [] →
     StronglySorted Z.le (calls.*2) →
     attempts_of (serve_all calls st).1 identifier = oldest :: rest →
     3600 ≤ now - oldest →
     (check_rate_limit now identifier (serve_all calls st).1).2 = true).
Proof.
  assert (Hrun : ∀ (calls : list (string * Z)) (st : State),
            attempts_of st identifier = [] →
            StronglySorted Z.le (calls.*2) →
            ∃ clock, ledger_inv identifier (serve_all calls st) clock).
  { intros calls st Hempty Hsorted. unfold serve_all.
    destruct calls as [|call calls]; [exists 0; by apply ledger_inv_start|].
    apply (serve_all_ledger_inv identifier (call :: calls) _ call.2);
      [by apply ledger_inv_start| |done].
    rewrite fmap_cons in Hsorted.
    apply StronglySorted_cons in Hsorted as [Hle _].
    rewrite Forall_fmap in Hle. apply Forall_cons. split; [simpl; lia|].
    eapply Forall_impl; [exact Hle|]. done. }
  split; [|split; [|split]].
  - intros now st kept res. subst kept res.
    pose proof (check_rate_limit_step now identifier st) as (Hdec & Hden & Hadm).
    split; [exact Hdec|]. split; [exact Hden|]. split; [exact Hadm|].
    intros t Ht. destruct ((check_rate_limit now identifier st).2) eqn:Hres.
    + rewrite Hadm in Ht by done. apply elem_of_app in Ht as [Ht|Ht].
      * by apply list_elem_of_filter in Ht as [Ht _].
      * apply list_elem_of_singleton in Ht as ->. lia.
    + rewrite Hden in Ht by done.
      by apply list_elem_of_filter in Ht as [Ht _].
  - intros calls st T Hempty Hsorted.
    destruct (Hrun calls st Hempty Hsorted) as [clock (_ & Hwin & _)].
    apply Hwin.
  - intros st t1 t2 t3 t4 t5 t6 Hempty H12 H23 H34 H45 H56 Hwin.
    unfold serve_all. cbn [foldl].
    rewrite (serve_admit st _ _ t1 []);
      [|done|constructor|simpl; lia].
    rewrite (serve_admit _ _ _ t2 [t1]);
      [|apply attempts_of_set|repeat constructor; lia|simpl; lia].
    rewrite (serve_admit _ _ _ t3 [t1; t2]);
      [|apply attempts_of_set|repeat constructor; lia|simpl; lia].
    rewrite (serve_admit _ _ _ t4 [t1; t2; t3]);
      [|apply attempts_of_set|repeat constructor; lia|simpl; lia].
    rewrite (serve_admit _ _ _ t5 [t1; t2; t3; t4]);
      [|apply attempts_of_set|repeat constructor; lia|simpl; lia].
    rewrite (serve_deny _ _ _ t6 [t1; t2; t3; t4; t5]);
      [|apply attempts_of_set|repeat constructor; lia|simpl; lia].
    done.
  - intros calls st now oldest rest Hempty Hsorted Hled Hold.
    destruct (Hrun calls st Hempty Hsorted) as [clock (_ & _ & Hlen)].
    pose proof (check_rate_limit_step now identifier (serve_all calls st).1)
      as (Hdec & _ & _).
    apply not_false_iff_true. intros Hdenied. apply Hdec in Hdenied.
    rewrite Hled in Hdenied, Hlen.
    rewrite filter_cons_False in Hdenied by lia.
    pose proof (length_filter (λ t, now - t < 3600) rest).
    simpl in Hlen. lia.
Qed.

Lemma rate_limit_five_per_hour_witness :
  (count_in_window 50
     (admitted "register_a@x.com" (serve_all mixed_calls initial_state).2) ≤ 5)%nat ∧
  (serve_all (burst_calls ++ [("register_a@x.com", 50)]) initial_state).2 =
    [("register_a@x.com", 0, true); ("register_a@x.com", 10, true);
     ("register_a@x.com", 20, true); ("register_a@x.com", 30, true);
     ("register_a@x.com", 40, true); ("register_a@x.com", 50, false)] ∧
  (check_rate_limit 3600 "register_a@x.com"
     (serve_all burst_calls initial_state).1).2 = true.
Proof.
  destruct (rate_limit_five_per_hour "register_a@x.com")
    as (_ & Hbound & Hsix & Hresume).
  split; [|split].
  - apply Hbound; [reflexivity|]. cbn. repeat constructor; lia.
  - apply Hsix; [reflexivity|lia..].
  - apply (Hresume _ _ 3600 0 [10; 20; 30; 40]);
      [reflexivity| |vm_compute; reflexivity|lia].
    cbn. repeat constructor; lia.
Defined.


(** ** TOTP verification *)

Lemma timecode_shift (now : Z) :
  30 ≤ now →
  timecode (now - 30) = timecode now - 1 ∧
  timecode (now + 30) = timecode now + 1 ∧
  1 ≤ timecode now.
Proof.
  intros Hnow. unfold timecode.
  rewrite !Z.quot_div_nonneg by lia.
  replace (now - 30) with (now + (-1) * 30) by lia.
  replace (now + 30) with (now + 1 * 30) by lia.
  rewrite !Z.div_add by lia.
  assert (1 ≤ now / 30) by (apply Z.div_le_lower_bound; lia). lia.
Qed.

Lemma timecode_early (now : Z) : now < 30 → timecode now < 1.
Proof.
  intros Hnow. unfold timecode.
  destruct (decide (0 ≤ now)).
  - rewrite Z.quot_small by lia. lia.
  - pose proof (Z.quot_opp_l now 30 ltac:(lia)) as Hopp.
    assert (0 ≤ (- now) ÷ 30) by (apply Z.quot_pos; lia). lia.
Qed.

(** From a step that is not the first one on, [verify_totp] compares the
    token with the codes of three counters; before, it raises. *)
Lemma verify_totp_offsets (L : Libs) (now : Z) (secret token : string) :
  (1 ≤ timecode now →
   verify_totp L now secret token =
   inr (strings_equal L token (generate_otp L secret (timecode now - 1))
        || strings_equal L token (generate_otp L secret (timecode now))
        || strings_equal L token (generate_otp L secret (timecode now + 1)))) ∧
  (timecode now < 1 → verify_totp L now secret token = inl ValueError).
Proof.
  unfold verify_totp, verify_offsets, totp_at. split; intros Htc.
  - rewrite !bool_decide_false by lia.
    replace (timecode now + -1) with (timecode now - 1) by lia.
    replace (timecode now + 0) with (timecode now) by lia.
    by repeat (destruct (strings_equal _ _ _); simpl).
  - by rewrite bool_decide_true by lia.
Qed.

(** C2, as amended: at a clock reading [now] of 30 seconds or more after
    the epoch, [verify_totp] returns true exactly when the submitted
    token equals, after NFKC normalisation of both strings, the TOTP
    value of the time step of [now - 30], of [now] or of [now + 30], and
    it returns false for a token that equals none of the three in that
    sense, whatever step it belongs to.  At a reading before second 30
    it raises [ValueError]. *)
Theorem verify_totp_three_steps (L : Libs) (now : Z) (secret token : string) :
  30 ≤ now →
  (verify_totp L now secret token = inr true ↔
     nfkc L token = nfkc L (generate_otp L secret (timecode (now - 30))) ∨
     nfkc L token = nfkc L (generate_otp L secret (timecode now)) ∨
     nfkc L token = nfkc L (generate_otp L secret (timecode (now + 30)))) ∧
  (verify_totp L now secret token ≠ inr true →
   verify_totp L now secret token = inr false) ∧
  (∀ step : Z,
     nfkc L token = nfkc L (generate_otp L secret step) →
     nfkc L (generate_otp L secret step)
       ≠ nfkc L (generate_otp L secret (timecode (now - 30))) →
     nfkc L (generate_otp L secret step)
       ≠ nfkc L (generate_otp L secret (timecode now)) →
     nfkc L (generate_otp L secret step)
       ≠ nfkc L (generate_otp L secret (timecode (now + 30))) →
     verify_totp L now secret token = inr false) ∧
  (∀ early : Z, early < 30 →
     verify_totp L early secret token = inl ValueError).
Proof.
  intros Hnow. destruct (timecode_shift now Hnow) as (Hm & Hp & Htc).
  destruct (verify_totp_offsets L now secret token) as [Hok _].
  specialize (Hok Htc). rewrite Hm, Hp.
  assert (Hiff : verify_totp L now secret token = inr true ↔
     nfkc L token = nfkc L (generate_otp L secret (timecode now - 1)) ∨
     nfkc L token = nfkc L (generate_otp L secret (timecode now)) ∨
     nfkc L token = nfkc L (generate_otp L secret (timecode now + 1))).
  { rewrite Hok. unfold strings_equal. split.
    - intros [= Heq]. rewrite !orb_true_iff, !bool_decide_eq_true in Heq.
      tauto.
    - intros Heq. f_equal. rewrite !orb_true_iff, !bool_decide_eq_true.
      tauto. }
  assert (Hfalse : verify_totp L now secret token ≠ inr true →
                   verify_totp L now secret token = inr false).
  { rewrite Hok. by destruct (_ || _ || _). }
  split; [exact Hiff|]. split; [exact Hfalse|]. split.
  - intros step Htok H1 H2 H3. apply Hfalse. rewrite Hiff, Htok. tauto.
  - intros early Hearly.
    by apply (verify_totp_offsets L early secret token), timecode_early.
Qed.

Lemma verify_totp_three_steps_witness :
  30 ≤ 1700000000 ∧
  verify_totp fixture_libs 1700000000 alice_secret "516922" = inr true ∧
  verify_totp fixture_libs 1700000000 alice_secret "621651" = inr true ∧
  verify_totp fixture_libs 1700000000 alice_secret "726380" = inr false.
Proof.
  assert (H30 : 30 ≤ 1700000000) by lia.
  destruct (verify_totp_three_steps fixture_libs 1700000000 alice_secret
              "516922" H30) as [[_ Hacc] _].
  destruct (verify_totp_three_steps fixture_libs 1700000000 alice_secret
              "621651" H30) as [[_ Hacc'] _].
  destruct (verify_totp_three_steps fixture_libs 1700000000 alice_secret
              "726380" H30) as (_ & _ & Hrej & _).
  split; [exact H30|]. split; [|split].
  - apply Hacc. right. left. vm_compute. reflexivity.
  - apply Hacc'. right. right. vm_compute. reflexivity.
  - apply (Hrej (timecode 1700000000 + 2)); vm_compute; congruence.
Defined.

(** C2 as stated fails: a token of full-width digits, which is none of
    the three six-digit codes of the window, is accepted, because the
    comparison normalises both strings; and ten seconds after the epoch
    the verification raises instead of returning. *)
Lemma verify_totp_accepts_fullwidth_counterexample :
  verify_totp fixture_libs 1700000010 alice_secret "５１６９２２" = inr true ∧
  "５１６９２２" ≠ generate_otp fixture_libs alice_secret
                   (timecode (1700000010 - 30)) ∧
  "５１６９２２" ≠ generate_otp fixture_libs alice_secret (timecode 1700000010) ∧
  "５１６９２２" ≠ generate_otp fixture_libs alice_secret
                   (timecode (1700000010 + 30)) ∧
  verify_totp fixture_libs 10 alice_secret "516922" = inl ValueError.
Proof.
  split; [vm_compute; reflexivity|].
  repeat (split; [vm_compute; discriminate|]).
  vm_compute. reflexivity.
Qed.

(** ** The identity check *)

(** C10: [check_linux_user_exists] returns true for every username (the
    username is itself a member of the list it is looked up in), so
    [register_user] never raises the "Linux user does not exist" error. *)
Theorem check_linux_user_exists_always (L : Libs) :
  (∀ username : string, check_linux_user_exists username = true) ∧
  (∀ (username : string),
     username ∈ ["testuser"; "demo"; "test"; username]) ∧
  (∀ (env : Env) (user_data : UserCreate) (st : State),
     (register_user L env user_data st).2 ≠ Raise UnknownIdentity).
Proof.
  assert (Hmem : ∀ username : string,
            username ∈ ["testuser"; "demo"; "test"; username]).
  { intros u. rewrite !elem_of_cons. auto. }
  assert (Hex : ∀ username : string, check_linux_user_exists username = true).
  { intros u. unfold check_linux_user_exists.
    apply orb_true_iff. left. apply bool_decide_eq_true, Hmem. }
  split; [exact Hex|]. split; [exact Hmem|].
  intros env user_data st. unfold register_user. rewrite Hex.
  unfold generate_qr_code. unfold_handler.
  destruct (check_rate_limit _ _ st) as [st1 [|]]; simpl; [|discriminate].
  repeat (case_bool_decide; simpl; try discriminate).
  destruct (qr_png_base64 L _); simpl; discriminate.
Qed.

(** ** Password change *)

Section password_change.
Variable L : Libs.
Implicit Types (env : Env) (request : PasswordChangeRequest) (st : State).

(** The checks of [change_password], in the order the handler runs them.
    The age of the last used code is never obtained: the subtraction
    that computes it raises. *)
Lemma change_password_eq env request st :
  change_password L env request st =
  let st1 := after_limit env request st in
  if negb (limit_ok env request st) then (st1, Raise RateLimited_change) else
  match lookup_account request st with
  | None => (st1, Raise NotFound)
  | Some user =>
    if negb (is_active user) then (st1, Raise Disabled) else
    match verify_totp L (totp_clock env) (totp_secret user) (otp_code request) with
    | inl err => (st1, Crash err)
    | inr false => (st1, Raise InvalidCode)
    | inr true =>
      if reuses_last_code user (otp_code request)
      then (st1, Crash TypeError) else
      if bool_decide (len (new_password request) < 8)%nat
      then (st1, Raise WeakCredential) else
      let calls :=
        passwd_calls st ++ [(req_username request, new_password request)] in
      if passwd_raises env
      then (mkState (rate_limit_storage st1) (db_users st) (db_writes st) calls
                    (email_tasks st),
            Raise RotationFailed)
      else (mkState (rate_limit_storage st1)
              (update_first (req_username request)
                 (set_last_otp (otp_code request) (utcnow env)) (db_users st))
              (db_writes st ++
                 [UpdateOneSet (req_username request) (otp_code request)
                               (utcnow env)])
              calls (email_tasks st),
            Return (<["status" := VStr "success"]>
                    (<["message" := VStr "Password changed successfully"]>
                    (<["timestamp" := VStr (isoformat L (utcnow env))]> ∅))))
    end
  end.
Proof.
  unfold change_password, after_limit, limit_ok, lookup_account,
    reuses_last_code.
  unfold_handler.
  pose proof (check_rate_limit_frame (time_time env)
                ("change_pass_" +:+ req_username request) st)
    as (Hdb & Hpw & Hem & Hwr).
  destruct (check_rate_limit _ _ st) as [st1 ok]. simpl in *.
  destruct ok; simpl; [|done].
  rewrite Hdb.
  destruct (List.find _ (db_users st)) as [user|]; [|done].
  destruct (is_active user); simpl; [|done].
  destruct (verify_totp _ _ _ _) as [err|[|]]; simpl; [done| |done].
  destruct (bool_decide (last_otp_used user = _)); simpl.
  - destruct (last_otp_time user) as [t|]; simpl.
    + done.
    + case_bool_decide; simpl; [done|].
      rewrite Hdb, Hpw, Hem, Hwr. by destruct (passwd_raises env).
  - case_bool_decide; simpl; [done|].
    rewrite Hdb, Hpw, Hem, Hwr. by destruct (passwd_raises env).
Qed.

Lemma reuses_last_code_true (user : User) (code : string) :
  reuses_last_code user code = true ↔
  last_otp_used user = Some code ∧ is_Some (last_otp_time user).
Proof.
  unfold reuses_last_code.
  by rewrite andb_true_iff, !bool_decide_eq_true.
Qed.

Lemma find_update_first (name : string) (f : User → User) (users : list User) :
  (∀ u, username (f u) = username u) →
  List.find (λ u, bool_decide (username u = name)) (update_first name f users)
  = f <$> List.find (λ u, bool_decide (username u = name)) users.
Proof.
  intros Hname. induction users as [|u users IH]; [done|]. simpl.
  case_bool_decide as Hu; simpl.
  - by rewrite Hname, bool_decide_true.
  - by rewrite bool_decide_false.
Qed.

(** C1, what the code does at the inputs of the claim: on a call that
    reaches the code checks (admitted by the rate limiter, account found
    and active), when the submitted code verifies, is the account's
    [last_otp_used], and [last_otp_time] is less than 30 seconds before
    the call's current time, the handler does not answer "OTP code
    already used recently": computing the age of the code subtracts the
    naive datetime read from the collection from the aware current time,
    which raises [TypeError].  The password change is not invoked and
    nothing is written.  No call at all is answered with that error. *)
Theorem replay_check_raises_type_error env request st (user : User)
    (last_time : Z) :
  limit_ok env request st = true →
  lookup_account request st = Some user →
  is_active user = true →
  verify_totp L (totp_clock env) (totp_secret user) (otp_code request)
    = inr true →
  last_otp_used user = Some (otp_code request) →
  last_otp_time user = Some last_time →
  utcnow env - last_time < 30 * 1000000 →
  (change_password L env request st).2 = Crash TypeError ∧
  (change_password L env request st).2 ≠ Raise ReplayedCode ∧
  passwd_calls (change_password L env request st).1 = passwd_calls st ∧
  db_users (change_password L env request st).1 = db_users st ∧
  db_writes (change_password L env request st).1 = db_writes st ∧
  (∀ env' request' st',
     (change_password L env' request' st').2 ≠ Raise ReplayedCode).
Proof.
  intros Hlim Hfind Hact Hver Hcode Htime Hdiff.
  assert (Hnever : ∀ env' request' st',
            (change_password L env' request' st').2 ≠ Raise ReplayedCode).
  { intros env' request' st'. rewrite change_password_eq. cbv zeta.
    repeat (case_match; simpl; try discriminate). }
  assert (Hrep : reuses_last_code user (otp_code request) = true).
  { apply reuses_last_code_true. rewrite Htime. eauto. }
  pose proof (check_rate_limit_frame (time_time env)
                ("change_pass_" +:+ req_username request) st)
    as (Hdb & Hpw & _ & Hwr).
  rewrite change_password_eq. cbv zeta.
  rewrite Hlim, Hfind, Hact, Hver, Hrep. simpl. unfold after_limit.
  repeat split; done.
Qed.

(** C4: when every check up to the password policy passes and the
    password change itself fails, the call fails with RotationFailed, the
    password change was invoked once, and the stored accounts (so both
    replay fields of every account) are unchanged, no write having been
    sent to the collection.  A retry is therefore judged against the
    replay fields as they were before the failed call: a later call for
    the same account whose code verifies and is not the one the account
    holds as last used succeeds, when the rate limiter admits it, the
    password is long enough and the change goes through. *)
Theorem rotation_failure_keeps_replay_state env request st (user : User) :
  limit_ok env request st = true →
  lookup_account request st = Some user →
  is_active user = true →
  verify_totp L (totp_clock env) (totp_secret user) (otp_code request)
    = inr true →
  reuses_last_code user (otp_code request) = false →
  (8 ≤ len (new_password request))%nat →
  passwd_raises env = true →
  let st' := (change_password L env request st).1 in
  (change_password L env request st).2 = Raise RotationFailed ∧
  passwd_calls st' =
    passwd_calls st ++ [(req_username request, new_password request)] ∧
  db_users st' = db_users st ∧
  db_writes st' = db_writes st ∧
  lookup_account request st' = Some user ∧
  (∀ env' request',
     req_username request' = req_username request →
     limit_ok env' request' st' = true →
     verify_totp L (totp_clock env') (totp_secret user) (otp_code request')
       = inr true →
     reuses_last_code user (otp_code request') = false →
     (8 ≤ len (new_password request'))%nat →
     passwd_raises env' = false →
     ∃ resp, (change_password L env' request' st').2 = Return resp).
Proof.
  intros Hlim Hfind Hact Hver Hrep Hlen Hfail st'.
  assert (Hst' : (change_password L env request st).2 = Raise RotationFailed ∧
                 passwd_calls st' = passwd_calls st ++
                   [(req_username request, new_password request)] ∧
                 db_users st' = db_users st ∧
                 db_writes st' = db_writes st).
  { subst st'. rewrite change_password_eq. cbv zeta.
    rewrite Hlim, Hfind, Hact, Hver, Hrep, Hfail. simpl.
    rewrite bool_decide_false by lia. simpl. done. }
  destruct Hst' as (Hres & Hcalls & Hdb & Hwr).
  split; [done|]. split; [done|]. split; [done|]. split; [done|].
  assert (Hfind' : lookup_account request st' = Some user).
  { unfold lookup_account in *. by rewrite Hdb. }
  split; [done|].
  intros env' request' Hname Hlim' Hver' Hrep' Hlen' Hok'.
  rewrite change_password_eq. cbv zeta.
  assert (Hfind'' : lookup_account request' st' = Some user).
  { unfold lookup_account in *. by rewrite Hname. }
  rewrite Hlim', Hfind'', Hact, Hver', Hrep', Hok'. simpl.
  rewrite bool_decide_false by lia. simpl. eauto.
Qed.

(** C6, as amended: on an existing active account and a new password
    shorter than 8 characters, the call fails with RateLimited when the
    rate limiter denies it, with InvalidCode when it is admitted and
    [verify_totp] rejects the code, and with WeakCredential when it is
    admitted, the code verifies and is not the one the account holds as
    last used.  With such a password, whatever the code, the call never
    succeeds, the stored accounts are unchanged, no write is sent to the
    collection and the password change is not invoked. *)
Theorem weak_credential_after_code_checks env request st (user : User) :
  lookup_account request st = Some user →
  is_active user = true →
  (len (new_password request) < 8)%nat →
  (limit_ok env request st = false →
   (change_password L env request st).2 = Raise RateLimited_change) ∧
  (limit_ok env request st = true →
   verify_totp L (totp_clock env) (totp_secret user) (otp_code request)
     = inr false →
   (change_password L env request st).2 = Raise InvalidCode) ∧
  (limit_ok env request st = true →
   verify_totp L (totp_clock env) (totp_secret user) (otp_code request)
     = inr true →
   reuses_last_code user (otp_code request) = false →
   (change_password L env request st).2 = Raise WeakCredential) ∧
  (∀ resp, (change_password L env request st).2 ≠ Return resp) ∧
  db_users (change_password L env request st).1 = db_users st ∧
  db_writes (change_password L env request st).1 = db_writes st ∧
  passwd_calls (change_password L env request st).1 = passwd_calls st.
Proof.
  intros Hfind Hact Hlen.
  pose proof (check_rate_limit_frame (time_time env)
                ("change_pass_" +:+ req_username request) st)
    as (Hdb & Hpw & _ & Hwr).
  fold (after_limit env request st) in Hdb, Hpw, Hwr.
  rewrite change_password_eq. cbv zeta. rewrite Hfind, Hact. simpl.
  rewrite (bool_decide_true _ Hlen).
  split; [by intros ->|]. split; [by intros -> ->|].
  split; [by intros -> -> ->|].
  destruct (limit_ok env request st); simpl; [|done].
  destruct (verify_totp _ _ _ _) as [err|[|]]; simpl; [done| |done].
  destruct (reuses_last_code _ _); simpl; done.
Qed.

(** C7, as amended: after a successful password change the account's
    [last_otp_used] is the submitted code and its [last_otp_time] is the
    call's current time in whole milliseconds, the precision the
    collection keeps (so less than a millisecond before that time).  The
    call sends one write to the collection, an [update_one] on the
    username whose [$set] carries both fields, and the collection after
    the call is the one before it with that update. *)
Theorem success_records_code_and_time env request st (resp : dict) :
  (change_password L env request st).2 = Return resp →
  ∃ user,
    lookup_account request st = Some user ∧
    db_writes (change_password L env request st).1 =
      db_writes st ++ [UpdateOneSet (req_username request) (otp_code request)
                                    (utcnow env)] ∧
    db_users (change_password L env request st).1 =
      update_first (req_username request)
        (set_last_otp (otp_code request) (utcnow env)) (db_users st) ∧
    lookup_account request (change_password L env request st).1 =
      Some (set_last_otp (otp_code request) (utcnow env) user) ∧
    last_otp_used (set_last_otp (otp_code request) (utcnow env) user) =
      Some (otp_code request) ∧
    last_otp_time (set_last_otp (otp_code request) (utcnow env) user) =
      Some (to_millis (utcnow env)) ∧
    utcnow env - 1000 < to_millis (utcnow env) ≤ utcnow env ∧
    resp !! "timestamp" = Some (VStr (isoformat L (utcnow env))).
Proof.
  rewrite change_password_eq. cbv zeta.
  destruct (limit_ok env request st); simpl; [|done].
  destruct (lookup_account request st) as [user|] eqn:Hfind; [|done].
  destruct (is_active user); simpl; [|done].
  destruct (verify_totp _ _ _ _) as [err|[|]]; simpl; [done| |done].
  destruct (reuses_last_code _ _); simpl; [done|].
  case_bool_decide; simpl; [done|].
  destruct (passwd_raises env); simpl; [done|].
  intros [= <-]. exists user. split; [done|]. split; [done|]. split; [done|].
  split.
  { unfold lookup_account in *. simpl.
    rewrite find_update_first by done. by rewrite Hfind. }
  split; [done|]. split; [done|]. split; [|done].
  unfold to_millis.
  pose proof (Z.div_mod (utcnow env) 1000 ltac:(lia)).
  pose proof (Z.mod_pos_bound (utcnow env) 1000 ltac:(lia)). lia.
Qed.

End password_change.

Lemma replay_check_raises_type_error_witness :
  (change_password fixture_libs (later false)
     (mkPasswordChangeRequest "alice" "516922" "longenough2") rotated).2
    = Crash TypeError ∧
  passwd_calls (change_password fixture_libs (later false)
     (mkPasswordChangeRequest "alice" "516922" "longenough2") rotated).1
    = [("alice", "longenough1")].
Proof.
  destruct (replay_check_raises_type_error fixture_libs (later false)
              (mkPasswordChangeRequest "alice" "516922" "longenough2")
              rotated alice_rotated 1700000000123000)
    as (Hcrash & _ & Hcalls & _);
    [vm_compute; reflexivity | vm_compute; reflexivity | reflexivity
    | vm_compute; reflexivity | reflexivity | reflexivity | simpl; lia |].
  split; [exact Hcrash | exact Hcalls].
Defined.

Lemma rotation_failure_keeps_replay_state_witness :
  (change_password fixture_libs (later true)
     (mkPasswordChangeRequest "alice" "621651" "longenough1") enrolled).2
    = Raise RotationFailed ∧
  db_users (change_password fixture_libs (later true)
     (mkPasswordChangeRequest "alice" "621651" "longenough1") enrolled).1
    = db_users enrolled ∧
  ∃ resp,
    (change_password fixture_libs (later false)
       (mkPasswordChangeRequest "alice" "621651" "longenough1")
       (change_password fixture_libs (later true)
          (mkPasswordChangeRequest "alice" "621651" "longenough1") enrolled).1).2
    = Return resp.
Proof.
  destruct (rotation_failure_keeps_replay_state fixture_libs (later true)
              (mkPasswordChangeRequest "alice" "621651" "longenough1")
              enrolled alice)
    as (Hres & _ & Hdb & _ & _ & Hretry);
    [vm_compute; reflexivity | vm_compute; reflexivity | reflexivity
    | vm_compute; reflexivity | reflexivity | simpl; lia | reflexivity |].
  split; [exact Hres|]. split; [exact Hdb|].
  apply Hretry;
    [reflexivity | vm_compute; reflexivity | vm_compute; reflexivity
    | reflexivity | simpl; lia | reflexivity].
Defined.

(** C6 as stated fails: on the enrolled, active account of alice, a short
    new password submitted with a code that [verify_totp] rejects makes
    the call fail with InvalidCode, not WeakCredential; submitted with a
    valid code after five calls within the hour it fails with
    RateLimited; and submitted with the code of her last successful
    change it ends in [TypeError]. *)
Lemma weak_credential_any_code_counterexample :
  (lookup_account (mkPasswordChangeRequest "alice" "000000" "short") enrolled
     = Some alice ∧
   is_active alice = true ∧
   (len "short" < 8)%nat ∧
   (change_password fixture_libs (later false)
      (mkPasswordChangeRequest "alice" "000000" "short") enrolled).2
     = Raise InvalidCode ∧
   Raise (A := dict) InvalidCode ≠ Raise WeakCredential) ∧
  (lookup_account (mkPasswordChangeRequest "alice" "621651" "short")
     (run fixture_libs five_guesses enrolled) = Some alice ∧
   (change_password fixture_libs (later false)
      (mkPasswordChangeRequest "alice" "621651" "short")
      (run fixture_libs five_guesses enrolled)).2
     = Raise RateLimited_change ∧
   Raise (A := dict) RateLimited_change ≠ Raise WeakCredential) ∧
  (lookup_account (mkPasswordChangeRequest "alice" "516922" "short") rotated
     = Some alice_rotated ∧
   is_active alice_rotated = true ∧
   (change_password fixture_libs (later false)
      (mkPasswordChangeRequest "alice" "516922" "short") rotated).2
     = Crash TypeError ∧
   Crash (A := dict) TypeError ≠ Raise WeakCredential).
Proof.
  split; [|split].
  - split; [vm_compute; reflexivity|]. split; [reflexivity|].
    split; [simpl; lia|]. split; [vm_compute; reflexivity|]. discriminate.
  - split; [vm_compute; reflexivity|]. split; [vm_compute; reflexivity|].
    discriminate.
  - split; [vm_compute; reflexivity|]. split; [reflexivity|].
    split; [vm_compute; reflexivity|]. discriminate.
Qed.

Lemma weak_credential_after_code_checks_witness :
  (change_password fixture_libs (later false)
     (mkPasswordChangeRequest "alice" "621651" "short") enrolled).2
    = Raise WeakCredential ∧
  db_users (change_password fixture_libs (later false)
     (mkPasswordChangeRequest "alice" "621651" "short") enrolled).1 = [alice].
Proof.
  destruct (weak_credential_after_code_checks fixture_libs (later false)
              (mkPasswordChangeRequest "alice" "621651" "short") enrolled alice)
    as (_ & _ & Hres & _ & Hdb & _);
    [vm_compute; reflexivity | reflexivity | simpl; lia |].
  split; [|exact Hdb].
  apply Hres; vm_compute; reflexivity.
Defined.

(** C7 as stated fails: alice's successful change at microsecond
    1700000010123456 leaves 1700000010123000 as her [last_otp_time]. *)
Lemma stored_time_is_truncated_counterexample :
  (∃ resp,
     (change_password fixture_libs (later false)
        (mkPasswordChangeRequest "alice" "621651" "longenough1") enrolled).2
     = Return resp) ∧
  utcnow (later false) = 1700000010123456 ∧
  (last_otp_time <$>
   lookup_account (mkPasswordChangeRequest "alice" "621651" "longenough1")
     (change_password fixture_libs (later false)
        (mkPasswordChangeRequest "alice" "621651" "longenough1") enrolled).1)
  = Some (Some 1700000010123000) ∧
  Some 1700000010123000 ≠ Some (utcnow (later false)).
Proof.
  split; [eexists; vm_compute; reflexivity|].
  split; [reflexivity|]. split; [vm_compute; reflexivity|].
  vm_compute. discriminate.
Qed.

Lemma success_records_code_and_time_witness :
  ∃ user,
    lookup_account (mkPasswordChangeRequest "alice" "621651" "longenough1")
      enrolled = Some user ∧
    lookup_account (mkPasswordChangeRequest "alice" "621651" "longenough1")
      (change_password fixture_libs (later false)
         (mkPasswordChangeRequest "alice" "621651" "longenough1") enrolled).1
    = Some (set_last_otp "621651" 1700000010123456 user).
Proof.
  destruct (success_records_code_and_time fixture_libs (later false)
              (mkPasswordChangeRequest "alice" "621651" "longenough1") enrolled
              (<["status" := VStr "success"]>
               (<["message" := VStr "Password changed successfully"]>
               (<["timestamp" := VStr "utc:1700000010123456"]> ∅))))
    as (user & Hfind & _ & _ & Hpost & _); [vm_compute; reflexivity|].
  exists user. split; [exact Hfind | exact Hpost].
Defined.

(** ** Registration *)

Lemma string_app_cons (x : ascii) (a b : string) :
  String x a +:+ b = String x (a +:+ b).
Proof. reflexivity. Qed.

Lemma string_app_nil (b : string) : "" +:+ b = b.
Proof. reflexivity. Qed.

Lemma string_app_assoc (a b c : string) : (a +:+ b) +:+ c = a +:+ (b +:+ c).
Proof.
  induction a as [|x a IH]; [done|]. by rewrite !string_app_cons, IH.
Qed.

Lemma string_bind_app (f : ascii → string) (a b : string) :
  string_bind f (a +:+ b) = string_bind f a +:+ string_bind f b.
Proof.
  induction a as [|x a IH]; [done|].
  rewrite string_app_cons. simpl. by rewrite IH, string_app_assoc.
Qed.

Lemma string_bind_id (f : ascii → string) (l : list ascii) :
  Forall (λ a, f a = String a EmptyString) l →
  string_bind f (String.string_of_list_ascii l) = String.string_of_list_ascii l.
Proof.
  induction 1 as [|a l Ha _ IH]; simpl; [done|]. by rewrite Ha, IH.
Qed.

Lemma length_string_of_list_ascii (l : list ascii) :
  String.length (String.string_of_list_ascii l) = length l.
Proof. induction l as [|a l IH]; simpl; [done|by rewrite IH]. Qed.

(** The generated secret: 32 characters, each of the base32 alphabet. *)
Lemma random_base32_shape (env : Env) :
  String.length (random_base32 env) = 32%nat ∧
  len (random_base32 env) = 32%nat ∧
  Forall (λ a, a ∈ base32_chars)
         (String.list_ascii_of_string (random_base32 env)).
Proof.
  unfold random_base32.
  assert (Hchars : Forall (λ a, a ∈ base32_chars)
            (map (λ i, nth (random_choice env i `mod` 32)%nat base32_chars
                           "A"%char) (seq 0 32))).
  { apply Forall_forall. intros a Ha.
    apply list_elem_of_fmap in Ha as (i & -> & _).
    apply list_elem_of_In, nth_In.
    change (length base32_chars) with 32%nat.
    by apply Nat.mod_upper_bound. }
  split; [by rewrite length_string_of_list_ascii|].
  split; [|by rewrite String.list_ascii_of_string_of_list_ascii].
  set (l := map _ (seq 0 32)) in *.
  assert (Hlen : length l = 32%nat) by done.
  clearbody l. rewrite <-Hlen. clear Hlen.
  induction Hchars as [|a l Ha _ IH]; simpl; [done|]. rewrite IH.
  assert (Hnot : Forall (λ a, is_continuation a = false) base32_chars)
    by (by repeat constructor).
  rewrite Forall_forall in Hnot. by rewrite (Hnot a Ha).
Qed.

(** The provisioning URI of a base32 secret carries it, as it is, as its
    [secret] parameter. *)
Lemma totp_uri_secret (name : string) (env : Env) :
  totp_uri name (random_base32 env) =
  "otpauth://totp/Linux%20OTP%20System:" +:+ quote (name +:+ "@linux-system")
  +:+ "?secret=" +:+ random_base32 env +:+ "&issuer=Linux%20OTP%20System".
Proof.
  destruct (random_base32_shape env) as (_ & _ & Hchars).
  assert (Hsafe : Forall (λ a,
              (if bool_decide (a = " "%char) then "+"
               else if always_safe a then String a EmptyString
               else percent_encode a) = String a EmptyString ∧
              (if bool_decide (a = "+"%char) then "%20"
               else String a EmptyString) = String a EmptyString)
            base32_chars) by (by repeat constructor).
  assert (Hq : quote_plus (random_base32 env) = random_base32 env ∧
               replace_plus (random_base32 env) = random_base32 env).
  { rewrite <-(String.string_of_list_ascii_of_string (random_base32 env)).
    rewrite Forall_forall in Hchars, Hsafe.
    split; apply string_bind_id, Forall_forall; intros a Ha;
      by apply Hsafe, Hchars. }
  destruct Hq as [Hqp Hrp].
  unfold totp_uri, provisioning_uri, urlencode. rewrite Hqp.
  unfold replace_plus at 1. rewrite !string_bind_app.
  fold (replace_plus (random_base32 env)). rewrite Hrp.
  by rewrite !string_app_assoc.
Qed.

Section registration.
Variable L : Libs.
Implicit Types (env : Env) (user_data : UserCreate) (st : State).

(** A registration either raises and stores nothing, or stores one new
    account, queues one e-mail and returns the three-field response. *)
Lemma register_user_cases env user_data st :
  ((∀ resp, (register_user L env user_data st).2 ≠ Return resp) ∧
   db_users (register_user L env user_data st).1 = db_users st ∧
   db_writes (register_user L env user_data st).1 = db_writes st ∧
   email_tasks (register_user L env user_data st).1 = email_tasks st) ∨
  ((register_user L env user_data st).2 = Return (register_response user_data) ∧
   db_users (register_user L env user_data st).1 =
     db_users st ++ [new_account env user_data] ∧
   db_writes (register_user L env user_data st).1 =
     db_writes st ++ [InsertOne (inserted_document env user_data)] ∧
   ∃ png,
     qr_png_base64 L (totp_uri (uc_username user_data) (random_base32 env))
       = Some png ∧
     email_tasks (register_user L env user_data st).1 =
       email_tasks st ++ [mkEmailTask (uc_email user_data)
                            "Linux OTP Sistemi - QR Kodu"
                            (uc_username user_data) png]).
Proof.
  unfold register_user, generate_qr_code, generate_totp_secret. unfold_handler.
  pose proof (check_rate_limit_frame (time_time env)
                ("register_" +:+ uc_email user_data) st)
    as (Hdb & _ & Hem & Hwr).
  destruct (check_rate_limit _ _ st) as [st1 ok]. simpl in *.
  destruct ok; simpl; [|left; eauto].
  case_bool_decide; simpl; [left; eauto|].
  case_bool_decide; simpl; [left; eauto|].
  destruct (check_linux_user_exists _); simpl; [|left; eauto].
  destruct (qr_png_base64 L _) as [png|] eqn:Hqr; simpl; [|left; eauto].
  right. rewrite Hdb, Hem, Hwr. eauto 10.
Qed.

Lemma register_response_fields user_data (k : string) (v : value) :
  register_response user_data !! k = Some v →
  (k, v) ∈ [("status", VStr "success");
            ("message", VStr "User registered successfully. QR code sent to email.");
            ("username", VStr (uc_username user_data))].
Proof.
  unfold register_response.
  rewrite !lookup_insert_Some, lookup_empty.
  intros [[<- <-]|[_ [[<- <-]|[_ [[<- <-]|[_ ?]]]]]]; [| | |done];
    rewrite !elem_of_cons; auto.
Qed.

(** C5, as amended: for every successful registration, the generated
    secret is a 32-character base32 string and the provisioning URI
    carries it as its [secret] parameter, but neither is in the value
    returned to the caller, which holds exactly the fields status, message
    and username: the secret is stored in the new account, and the URI,
    rendered as a QR code, is handed to the e-mail task. *)
Theorem register_user_returns_status_only env user_data st (resp : dict) :
  (register_user L env user_data st).2 = Return resp →
  let secret := generate_totp_secret env in
  let uri := totp_uri (uc_username user_data) secret in
  len secret = 32%nat ∧
  Forall (λ a, a ∈ base32_chars) (String.list_ascii_of_string secret) ∧
  uri = "otpauth://totp/Linux%20OTP%20System:"
        +:+ quote (uc_username user_data +:+ "@linux-system")
        +:+ "?secret=" +:+ secret +:+ "&issuer=Linux%20OTP%20System" ∧
  (∀ k v, resp !! k = Some v ↔
     (k, v) ∈ [("status", VStr "success");
               ("message", VStr "User registered successfully. QR code sent to email.");
               ("username", VStr (uc_username user_data))]) ∧
  resp !! "secret" = None ∧
  db_users (register_user L env user_data st).1 =
    db_users st ++ [new_account env user_data] ∧
  totp_secret (new_account env user_data) = secret ∧
  ∃ png,
    qr_png_base64 L uri = Some png ∧
    email_tasks (register_user L env user_data st).1 =
      email_tasks st ++ [mkEmailTask (uc_email user_data)
                           "Linux OTP Sistemi - QR Kodu"
                           (uc_username user_data) png].
Proof.
  intros Hret secret uri. subst secret uri. unfold generate_totp_secret.
  destruct (random_base32_shape env) as (_ & Hlen & Hchars).
  destruct (register_user_cases env user_data st)
    as [(Hno & _)|(Hres & Hdb & _ & Htask)]; [by destruct (Hno resp)|].
  rewrite Hres in Hret. injection Hret as <-.
  split; [done|]. split; [done|]. split; [apply totp_uri_secret|].
  split; [|done].
  intros k v. split; [apply register_response_fields|].
  rewrite !elem_of_cons, elem_of_nil.
  intros [[= -> ->]|[[= -> ->]|[[= -> ->]|[]]]]; done.
Qed.

End registration.

(** C5 as stated fails: the dictionary returned by a successful
    registration of alice has no field holding the generated secret and no
    field holding the provisioning URI. *)
Lemma register_user_returns_secret_counterexample :
  ∃ resp : dict,
    (register_user fixture_libs enroll_env (mkUserCreate "alice" "a@x.com")
       initial_state).2 = Return resp ∧
    (∀ k, resp !! k ≠ Some (VStr (generate_totp_secret enroll_env))) ∧
    (∀ k, resp !! k ≠
          Some (VStr (totp_uri "alice" (generate_totp_secret enroll_env)))).
Proof.
  exists (register_response (mkUserCreate "alice" "a@x.com")).
  split; [vm_compute; reflexivity|].
  split; intros k Hk; apply register_response_fields in Hk;
    rewrite !elem_of_cons, elem_of_nil in Hk;
    destruct Hk as [Hk|[Hk|[Hk|[]]]]; vm_compute in Hk; discriminate.
Qed.

Lemma register_user_returns_status_only_witness :
  db_users (register_user fixture_libs enroll_env
              (mkUserCreate "alice" "a@x.com") initial_state).1 = [alice] ∧
  register_response (mkUserCreate "alice" "a@x.com") !! "secret" = None ∧
  totp_uri "alice" alice_secret =
    "otpauth://totp/Linux%20OTP%20System:alice%40linux-system?secret="
    +:+ alice_secret +:+ "&issuer=Linux%20OTP%20System".
Proof.
  destruct (register_user_returns_status_only fixture_libs enroll_env
              (mkUserCreate "alice" "a@x.com") initial_state
              (register_response (mkUserCreate "alice" "a@x.com")))
    as (_ & _ & Huri & _ & Hsecret & Hdb & _); [vm_compute; reflexivity|].
  split; [exact Hdb|]. split; [exact Hsecret | exact Huri].
Defined.

(** ** The replay fields across the routes *)

Section replay_state.
Variable L : Libs.

Lemma get_qr_code_frame (env : Env) (name : string) (st : State) :
  db_users (get_qr_code L env name st).1 = db_users st.
Proof.
  unfold get_qr_code, generate_qr_code. unfold_handler.
  pose proof (check_rate_limit_frame (time_time env) ("qr_code_" +:+ name) st)
    as (Hdb & _).
  destruct (check_rate_limit _ _ st) as [st1 ok]. simpl in *.
  destruct ok; simpl; [|done].
  destruct (List.find _ (db_users st1)); simpl; [|done].
  by destruct (qr_png_base64 L _).
Qed.

Lemma update_first_pair_ok (name code : string) (time : Z) (users : list User) :
  Forall replay_pair_ok users →
  Forall replay_pair_ok (update_first name (set_last_otp code time) users).
Proof.
  induction 1 as [|u users Hu Husers IH]; simpl; [constructor|].
  case_bool_decide; by constructor.
Qed.

(** What a password change does to the collection: nothing unless it
    returns, and then the one update of both replay fields. *)
Lemma change_password_db (env : Env) (request : PasswordChangeRequest) (st : State) :
  ((∀ resp, (change_password L env request st).2 ≠ Return resp) ∧
   db_users (change_password L env request st).1 = db_users st ∧
   db_writes (change_password L env request st).1 = db_writes st) ∨
  ((∃ resp, (change_password L env request st).2 = Return resp) ∧
   db_users (change_password L env request st).1 =
     update_first (req_username request)
       (set_last_otp (otp_code request) (utcnow env)) (db_users st) ∧
   db_writes (change_password L env request st).1 =
     db_writes st ++ [UpdateOneSet (req_username request) (otp_code request)
                                   (utcnow env)]).
Proof.
  pose proof (check_rate_limit_frame (time_time env)
                ("change_pass_" +:+ req_username request) st)
    as (Hdb & _ & _ & Hwr).
  rewrite change_password_eq. cbv zeta.
  fold (after_limit env request st) in Hdb, Hwr.
  destruct (limit_ok env request st); simpl; [|left; eauto].
  destruct (lookup_account request st) as [user|]; [|left; eauto].
  destruct (is_active user); simpl; [|left; eauto].
  destruct (verify_totp _ _ _ _) as [err|[|]]; simpl;
    [left; eauto| |left; eauto].
  destruct (reuses_last_code _ _); simpl; [left; eauto|].
  case_bool_decide; simpl; [left; eauto|].
  destruct (passwd_raises env); simpl; [left; eauto|right; eauto].
Qed.

Lemma handle_pair_ok (r : Request) (st : State) :
  Forall replay_pair_ok (db_users st) →
  Forall replay_pair_ok (db_users (handle L r st)).
Proof.
  intros Hok. destruct r as [env user_data|env request|env name|]; simpl.
  - destruct (register_user_cases L env user_data st)
      as [(_ & -> & _)|(_ & -> & _)]; [done|].
    apply Forall_app. split; [done|]. constructor; [|constructor].
    unfold replay_pair_ok. simpl. split; intros [? [=]].
  - destruct (change_password_db env request st) as [(_ & -> & _)|(_ & -> & _)];
      [done|by apply update_first_pair_ok].
  - by rewrite get_qr_code_frame.
  - done.
Qed.

(** C8: every route keeps, for every stored account, [last_otp_used] and
    [last_otp_time] both null or both set, so this holds in every state
    the server reaches from its start; and the replay fields of the
    stored accounts stay as they are (a registration adding one account
    with both fields null) under every request except a password change
    that returns successfully. *)
Theorem replay_pair_invariant :
  (∀ (r : Request) (st : State),
     Forall replay_pair_ok (db_users st) →
     Forall replay_pair_ok (db_users (handle L r st))) ∧
  (∀ reqs : list Request,
     Forall replay_pair_ok (db_users (run L reqs initial_state))) ∧
  (∀ (r : Request) (st : State),
     (∃ new, replay_fields (handle L r st) = replay_fields st ++ new ∧
             Forall (λ e, e.1.2 = None ∧ e.2 = None) new) ∨
     (∃ env request resp,
        r = ReqChangePassword env request ∧
        (change_password L env request st).2 = Return resp)).
Proof.
  split; [exact handle_pair_ok|]. split.
  - intros reqs. unfold run.
    assert (Hgen : ∀ st, Forall replay_pair_ok (db_users st) →
              Forall replay_pair_ok
                (db_users (foldl (λ st r, handle L r st) st reqs))).
    { induction reqs as [|r reqs IH]; intros st Hst; [done|].
      simpl. by apply IH, handle_pair_ok. }
    apply Hgen. constructor.
  - intros r st. unfold replay_fields.
    destruct r as [env user_data|env request|env name|]; simpl.
    + left. destruct (register_user_cases L env user_data st)
        as [(_ & -> & _)|(_ & -> & _)].
      * exists []. by rewrite app_nil_r.
      * eexists. rewrite map_app. split; [done|].
        simpl. by repeat constructor.
    + destruct (change_password_db env request st)
        as [(_ & -> & _)|([resp Hresp] & _)].
      * left. exists []. by rewrite app_nil_r.
      * right. eauto.
    + left. exists []. by rewrite get_qr_code_frame, app_nil_r.
    + left. exists []. by rewrite app_nil_r.
Qed.

End replay_state.

Lemma replay_pair_invariant_witness :
  Forall replay_pair_ok
    (db_users (handle fixture_libs
                 (ReqChangePassword (later false)
                    (mkPasswordChangeRequest "alice" "621651" "longenough1"))
                 enrolled)) ∧
  db_users (handle fixture_libs
              (ReqChangePassword (later false)
                 (mkPasswordChangeRequest "alice" "621651" "longenough1"))
              enrolled) = [set_last_otp "621651" 1700000010123456 alice].
Proof.
  destruct (replay_pair_invariant fixture_libs) as (Hstep & _ & _).
  split; [|vm_compute; reflexivity].
  apply Hstep. apply Forall_cons. split; [|constructor].
  unfold replay_pair_ok. simpl. split; intros [? [=]].
Defined.

(** ** The accounts listing *)

Lemma listed_fields (u : User) :
  let d := delete "last_otp_used" (delete "totp_secret" (document u)) in
  d !! "totp_secret" = None ∧
  d !! "last_otp_used" = None ∧
  d !! "last_otp_time" = Some (opt_time (last_otp_time u)) ∧
  d !! "_id" = Some (VObjectId (_id u)).
Proof. unfold document, User_dict. by simplify_map_eq. Qed.

(** C9, as amended: [get_users] leaves the state as it is, and every
    record it returns lacks the keys [totp_secret] and [last_otp_used]
    but keeps [last_otp_time], with the value stored for the account. *)
Theorem get_users_strips_secret_and_code (st : State) :
  (get_users st).1 = st ∧
  ∃ docs : list dict,
    (get_users st).2 = Return docs ∧
    Forall2 (λ (d : dict) (u : User),
               d !! "totp_secret" = None ∧
               d !! "last_otp_used" = None ∧
               d !! "last_otp_time" = Some (opt_time (last_otp_time u)))
            docs (take 1000 (db_users st)).
Proof.
  split; [done|]. unfold get_users. simpl. eexists. split; [done|].
  induction (take 1000 (db_users st)) as [|u users IH]; simpl; constructor.
  - destruct (listed_fields u) as (? & ? & ? & _). done.
  - exact IH.
Qed.

(** C9 as stated fails: after alice changed her password, the record
    listed for her still holds [last_otp_time]. *)
Lemma get_users_keeps_last_otp_time_counterexample :
  ∃ d : dict,
    (get_users rotated).2 = Return [d] ∧
    d !! "last_otp_time" = Some (VTime 1700000000123000) ∧
    d !! "last_otp_time" ≠ None.
Proof.
  eexists. split; [reflexivity|]. split; [vm_compute; reflexivity|].
  vm_compute. discriminate.
Qed.

(** * Further properties of the routes *)

(** ** Equations of the handlers *)

Lemma check_linux_user_exists_true (name : string) :
  check_linux_user_exists name = true.
Proof.
  unfold check_linux_user_exists. apply orb_true_iff. left.
  apply bool_decide_eq_true. rewrite !elem_of_cons. auto.
Qed.

(** The checks of [register_user], in the order the handler runs them;
    the QR code is rendered before anything is stored. *)
Lemma register_user_eq (L : Libs) (env : Env) (user_data : UserCreate) (st : State) :
  register_user L env user_data st =
  let st1 := (check_rate_limit (time_time env)
                ("register_" +:+ uc_email user_data) st).1 in
  if negb (register_limit_ok env user_data st)
  then (st1, Raise RateLimited_register) else
  if bool_decide (is_Some (by_username (uc_username user_data) st))
  then (st1, Raise DuplicateUsername) else
  if bool_decide (is_Some (by_email (uc_email user_data) st))
  then (st1, Raise DuplicateEmail) else
  match qr_png_base64 L (totp_uri (uc_username user_data)
                                  (generate_totp_secret env)) with
  | None => (st1, Crash DataOverflowError)
  | Some png =>
      (mkState (rate_limit_storage st1)
         (db_users st ++ [new_account env user_data])
         (db_writes st ++ [InsertOne (inserted_document env user_data)])
         (passwd_calls st)
         (email_tasks st ++ [mkEmailTask (uc_email user_data)
                               "Linux OTP Sistemi - QR Kodu"
                               (uc_username user_data) png]),
       Return (register_response user_data))
  end.
Proof.
  unfold register_user, register_limit_ok, by_username, by_email,
    generate_qr_code.
  unfold_handler. rewrite check_linux_user_exists_true.
  pose proof (check_rate_limit_frame (time_time env)
                ("register_" +:+ uc_email user_data) st)
    as (Hdb & Hpw & Hem & Hwr).
  destruct (check_rate_limit _ _ st) as [st1 ok]. simpl in *.
  destruct ok; simpl; [|done]. rewrite Hdb.
  case_bool_decide; simpl; [done|]. rewrite Hdb.
  case_bool_decide; simpl; [done|].
  destruct (qr_png_base64 L _); simpl; [|done].
  by rewrite Hdb, Hpw, Hem, Hwr.
Qed.

(** The checks of [get_qr_code]. *)
Lemma get_qr_code_eq (L : Libs) (env : Env) (name : string) (st : State) :
  get_qr_code L env name st =
  let st1 := (check_rate_limit (time_time env) ("qr_code_" +:+ name) st).1 in
  if negb (qr_limit_ok env name st) then (st1, Raise RateLimited_qr) else
  match by_username name st with
  | None => (st1, Raise NotFound)
  | Some user =>
      match qr_png_base64 L (totp_uri name (totp_secret user)) with
      | None => (st1, Crash DataOverflowError)
      | Some png => (st1, Return (mkQRCodeResponse png (totp_secret user)))
      end
  end.
Proof.
  unfold get_qr_code, qr_limit_ok, by_username, generate_qr_code.
  unfold_handler.
  pose proof (check_rate_limit_frame (time_time env) ("qr_code_" +:+ name) st)
    as (Hdb & _).
  destruct (check_rate_limit _ _ st) as [st1 ok]. simpl in *.
  destruct ok; simpl; [|done]. rewrite Hdb.
  destruct (List.find _ (db_users st)); simpl; [|done].
  by destruct (qr_png_base64 L _).
Qed.

(** Every route runs the rate limiter at most once, on its own key. *)
Lemma handle_storage (L : Libs) (r : Request) (st : State) :
  rate_limit_storage (handle L r st) = rate_limit_storage st ∨
  ∃ now key,
    rate_limit_storage (handle L r st) =
    rate_limit_storage (check_rate_limit now key st).1.
Proof.
  destruct r as [env user_data|env request|env name|]; simpl.
  - right. exists (time_time env), ("register_" +:+ uc_email user_data).
    rewrite register_user_eq. cbv zeta.
    repeat (case_match; simpl; try done).
  - right. exists (time_time env), ("change_pass_" +:+ req_username request).
    rewrite change_password_eq. cbv zeta. unfold after_limit.
    repeat (case_match; simpl; try done).
  - right. exists (time_time env), ("qr_code_" +:+ name).
    rewrite get_qr_code_eq. cbv zeta.
    repeat (case_match; simpl; try done).
  - by left.
Qed.

(** ** More on the rate limiter *)

Lemma attempts_of_storage (st st' : State) (identifier : string) :
  rate_limit_storage st' = rate_limit_storage st →
  attempts_of st' identifier = attempts_of st identifier.
Proof. unfold attempts_of. by intros ->. Qed.

Lemma check_rate_limit_bounded (now : Z) (key : string) (st : State) :
  (∀ identifier, (length (attempts_of st identifier) ≤ 5)%nat) →
  ∀ identifier,
    (length (attempts_of (check_rate_limit now key st).1 identifier) ≤ 5)%nat.
Proof.
  intros Hst identifier.
  destruct (decide (key = identifier)) as [<-|Hne];
    [|by rewrite check_rate_limit_other].
  pose proof (check_rate_limit_step now key st) as (Hdec & Hden & Hadm).
  pose proof (length_filter (λ t, (now - t < 3600)%Z) (attempts_of st key)).
  specialize (Hst key).
  destruct ((check_rate_limit now key st).2) eqn:Hres.
  - rewrite Hadm by done. rewrite length_app. simpl.
    destruct (decide (5 ≤ length (filter (λ t, (now - t < 3600)%Z)
                                    (attempts_of st key)))%nat) as [Hfull|];
      [|lia].
    apply Hdec in Hfull. congruence.
  - rewrite Hden by done. lia.
Qed.

(** X1: whatever requests the server has handled since its start, with
    whatever clock readings, the rate limiter holds at most five readings
    for any identifier. *)
Theorem ledger_never_exceeds_five (L : Libs) (reqs : list Request)
    (identifier : string) :
  (length (attempts_of (run L reqs initial_state) identifier) ≤ 5)%nat.
Proof.
  revert identifier. unfold run.
  assert (Hgen : ∀ st,
            (∀ identifier, (length (attempts_of st identifier) ≤ 5)%nat) →
            ∀ identifier,
              (length (attempts_of (foldl (λ st r, handle L r st) st reqs)
                         identifier) ≤ 5)%nat).
  { induction reqs as [|r reqs IH]; intros st Hst; [done|].
    simpl. apply IH. intros identifier.
    destruct (handle_storage L r st) as [Heq|(now & key & Heq)].
    - by rewrite (attempts_of_storage st).
    - rewrite (attempts_of_storage _ _ _ Heq).
      by apply check_rate_limit_bounded. }
  apply Hgen. intros identifier. unfold attempts_of. simpl.
  rewrite lookup_empty. simpl. lia.
Qed.

(** A call reads the ledger of its identifier only, and rewrites that
    ledger only. *)
Lemma check_rate_limit_ext (now : Z) (identifier : string) (st st' : State) :
  attempts_of st identifier = attempts_of st' identifier →
  (check_rate_limit now identifier st).2 = (check_rate_limit now identifier st').2 ∧
  ∃ l, (check_rate_limit now identifier st).1 = set_attempts identifier l st ∧
       (check_rate_limit now identifier st').1 = set_attempts identifier l st'.
Proof.
  intros Heq. unfold check_rate_limit. rewrite Heq.
  case_decide; simpl; eauto.
Qed.

(** X2: calls of the rate limiter for two different identifiers commute:
    in either order they give the same two decisions and the same final
    state. *)
Theorem check_rate_limit_commute (now1 now2 : Z) (id1 id2 : string) (st : State) :
  id1 ≠ id2 →
  let first := check_rate_limit now1 id1 st in
  let second := check_rate_limit now2 id2 st in
  (check_rate_limit now2 id2 first.1).2 = second.2 ∧
  (check_rate_limit now1 id1 second.1).2 = first.2 ∧
  (check_rate_limit now2 id2 first.1).1 = (check_rate_limit now1 id1 second.1).1.
Proof.
  intros Hne first second. subst first second.
  destruct (check_rate_limit_ext now2 id2 (check_rate_limit now1 id1 st).1 st)
    as (Hd2 & l2 & Hs2 & Hs2'); [by apply check_rate_limit_other|].
  destruct (check_rate_limit_ext now1 id1 (check_rate_limit now2 id2 st).1 st)
    as (Hd1 & l1 & Hs1 & Hs1'); [by apply check_rate_limit_other|].
  split; [done|]. split; [done|].
  rewrite Hs2, Hs1, Hs1', Hs2'. unfold set_attempts. simpl.
  f_equal. by apply insert_insert_ne.
Qed.

Lemma check_rate_limit_commute_witness :
  (check_rate_limit 7 "change_pass_alice"
     (check_rate_limit 3 "qr_code_alice" initial_state).1).1 =
  (check_rate_limit 3 "qr_code_alice"
     (check_rate_limit 7 "change_pass_alice" initial_state).1).1.
Proof.
  apply (check_rate_limit_commute 3 7 "qr_code_alice" "change_pass_alice"
           initial_state).
  discriminate.
Defined.

(** X3: a denied call leaves no trace for later calls: after a call
    denied at reading [now], any call for the same identifier at a reading
    [later ≥ now] is decided, and leaves the state, exactly as if the
    denied call had not been made. *)
Theorem denied_call_leaves_no_trace (now later : Z) (identifier : string)
    (st : State) :
  now ≤ later →
  (check_rate_limit now identifier st).2 = false →
  check_rate_limit later identifier (check_rate_limit now identifier st).1 =
  check_rate_limit later identifier st.
Proof.
  intros Hle Hdenied.
  pose proof (check_rate_limit_step now identifier st) as (_ & Hden & _).
  specialize (Hden Hdenied).
  assert (Hst : (check_rate_limit now identifier st).1 =
                set_attempts identifier
                  (filter (λ t, (now - t < 3600)%Z) (attempts_of st identifier)) st).
  { revert Hdenied. unfold check_rate_limit. by case_decide. }
  rewrite Hst. unfold check_rate_limit at 1 2.
  rewrite attempts_of_set.
  rewrite (list_filter_filter_l (λ t, later - t < 3600) (λ t, now - t < 3600))
    by (intros t; lia).
  unfold set_attempts. simpl.
  case_decide; simpl; f_equal; f_equal; apply insert_insert_eq.
Qed.

Lemma denied_call_leaves_no_trace_witness :
  check_rate_limit 3700 "register_a@x.com"
    (check_rate_limit 50 "register_a@x.com"
       (serve_all burst_calls initial_state).1).1 =
  check_rate_limit 3700 "register_a@x.com"
    (serve_all burst_calls initial_state).1.
Proof.
  apply denied_call_leaves_no_trace; [lia | vm_compute; reflexivity].
Defined.

(** X4: once 3600 seconds have passed since the latest recorded reading
    of an identifier, the next call is admitted and the ledger of the
    identifier holds that call only. *)
Theorem window_elapsed_readmits (now latest : Z) (identifier : string)
    (st : State) :
  Forall (λ t, t ≤ latest) (attempts_of st identifier) →
  latest + 3600 ≤ now →
  check_rate_limit now identifier st = (set_attempts identifier [now] st, true).
Proof.
  intros Hold Hnow. unfold check_rate_limit.
  assert (Hnone : filter (λ t, now - t < 3600) (attempts_of st identifier) = []).
  { induction Hold as [|t l Ht _ IH]; [done|].
    by rewrite filter_cons_False by lia. }
  by rewrite Hnone.
Qed.

Lemma window_elapsed_readmits_witness :
  check_rate_limit 3640 "register_a@x.com"
    (serve_all burst_calls initial_state).1 =
  (set_attempts "register_a@x.com" [3640]
     (serve_all burst_calls initial_state).1, true).
Proof.
  apply (window_elapsed_readmits 3640 40).
  - vm_compute. repeat constructor; discriminate.
  - lia.
Defined.

(** ** Registration: outcomes and the stored accounts *)

Lemma find_None_not_elem {B} `{EqDecision B} (g : User → B) (x : B)
    (users : list User) :
  List.find (λ u, bool_decide (g u = x)) users = None → x ∉ map g users.
Proof.
  induction users as [|u users IH]; simpl; [intros _; apply not_elem_of_nil|].
  case_bool_decide as Hu; [done|]. intros Hnone.
  apply not_elem_of_cons. split; [congruence|by apply IH].
Qed.

Lemma find_snoc {B} `{EqDecision B} (g : User → B) (x : B)
    (users : list User) (u : User) :
  List.find (λ u, bool_decide (g u = x)) (users ++ [u]) =
  match List.find (λ u, bool_decide (g u = x)) users with
  | Some v => Some v
  | None => if bool_decide (g u = x) then Some u else None
  end.
Proof.
  induction users as [|v users IH]; simpl; [done|].
  destruct (bool_decide (g v = x)); [done|exact IH].
Qed.

Lemma find_Some_elem {B} `{EqDecision B} (g : User → B) (x : B)
    (users : list User) (u : User) :
  List.find (λ u, bool_decide (g u = x)) users = Some u → u ∈ users ∧ g u = x.
Proof.
  induction users as [|v users IH]; simpl; [done|].
  case_bool_decide as Hv.
  - intros [= <-]. split; [apply elem_of_cons; auto|done].
  - intros Hfind. destruct (IH Hfind). split; [apply elem_of_cons; auto|done].
Qed.

Lemma map_update_first {B} (g : User → B) (name : string) (f : User → User)
    (users : list User) :
  (∀ u, g (f u) = g u) → map g (update_first name f users) = map g users.
Proof.
  intros Hg. induction users as [|u users IH]; simpl; [done|].
  case_bool_decide; simpl; by rewrite ?Hg, ?IH.
Qed.

Lemma Forall_update_first (P : User → Prop) (name : string) (f : User → User)
    (users : list User) :
  (∀ u, P u → P (f u)) → Forall P users → Forall P (update_first name f users).
Proof.
  intros Hf. induction 1 as [|u users Hu Husers IH]; simpl; [constructor|].
  case_bool_decide; constructor; auto.
Qed.

Lemma find_update_first_ne (name other : string) (f : User → User)
    (users : list User) :
  (∀ u, username (f u) = username u) → other ≠ name →
  List.find (λ u, bool_decide (username u = other)) (update_first name f users)
  = List.find (λ u, bool_decide (username u = other)) users.
Proof.
  intros Hname Hne. induction users as [|u users IH]; simpl; [done|].
  case_bool_decide as Hu; simpl.
  - rewrite Hname. rewrite !bool_decide_false by congruence. done.
  - by rewrite IH.
Qed.

(** What a successful registration found and what it leaves behind. *)
Lemma register_user_success_inv (L : Libs) (env : Env) (user_data : UserCreate)
    (st : State) (resp : dict) :
  (register_user L env user_data st).2 = Return resp →
  resp = register_response user_data ∧
  register_limit_ok env user_data st = true ∧
  by_username (uc_username user_data) st = None ∧
  by_email (uc_email user_data) st = None ∧
  (∃ png,
     qr_png_base64 L (totp_uri (uc_username user_data)
                        (generate_totp_secret env)) = Some png ∧
     email_tasks (register_user L env user_data st).1 =
       email_tasks st ++ [mkEmailTask (uc_email user_data)
                            "Linux OTP Sistemi - QR Kodu"
                            (uc_username user_data) png]) ∧
  db_users (register_user L env user_data st).1 =
    db_users st ++ [new_account env user_data] ∧
  by_username (uc_username user_data) (register_user L env user_data st).1 =
    Some (new_account env user_data) ∧
  by_email (uc_email user_data) (register_user L env user_data st).1 =
    Some (new_account env user_data).
Proof.
  rewrite register_user_eq. cbv zeta.
  destruct (register_limit_ok env user_data st); simpl; [|done].
  destruct (by_username (uc_username user_data) st) as [u|] eqn:Hu; simpl;
    [done|].
  destruct (by_email (uc_email user_data) st) as [v|] eqn:Hv; simpl; [done|].
  destruct (qr_png_base64 L _) as [png|]; simpl; [|done].
  intros [= <-]. unfold by_username, by_email in *. simpl.
  rewrite (find_snoc username), (find_snoc email), Hu, Hv. simpl.
  rewrite !bool_decide_true by done. eauto 10.
Qed.

(** X5: the outcome of a registration.  It is rejected with 429 exactly
    when the rate limiter denies it; otherwise with "Username already
    exists" exactly when the username is stored; otherwise with "Email
    already registered" exactly when the e-mail address is stored;
    otherwise it ends in the [DataOverflowError] of the QR rendering
    exactly when the provisioning URI cannot be rendered; and it succeeds
    in the remaining case.  A registration that does not succeed stores
    no account, sends no write and queues no e-mail, and no registration
    invokes the password change. *)
Theorem register_user_outcome (L : Libs) (env : Env) (user_data : UserCreate)
    (st : State) :
  let res := register_user L env user_data st in
  let renders :=
    qr_renders L (uc_username user_data) (generate_totp_secret env) in
  (res.2 = Raise RateLimited_register ↔
     register_limit_ok env user_data st = false) ∧
  (res.2 = Raise DuplicateUsername ↔
     register_limit_ok env user_data st = true ∧
     is_Some (by_username (uc_username user_data) st)) ∧
  (res.2 = Raise DuplicateEmail ↔
     register_limit_ok env user_data st = true ∧
     by_username (uc_username user_data) st = None ∧
     is_Some (by_email (uc_email user_data) st)) ∧
  (res.2 = Crash DataOverflowError ↔
     register_limit_ok env user_data st = true ∧
     by_username (uc_username user_data) st = None ∧
     by_email (uc_email user_data) st = None ∧
     ¬ renders) ∧
  (res.2 = Return (register_response user_data) ↔
     register_limit_ok env user_data st = true ∧
     by_username (uc_username user_data) st = None ∧
     by_email (uc_email user_data) st = None ∧
     renders) ∧
  (res.2 ≠ Return (register_response user_data) →
     db_users res.1 = db_users st ∧ db_writes res.1 = db_writes st ∧
     email_tasks res.1 = email_tasks st) ∧
  passwd_calls res.1 = passwd_calls st.
Proof.
  intros res renders. subst res renders. unfold qr_renders.
  rewrite register_user_eq. cbv zeta.
  pose proof (check_rate_limit_frame (time_time env)
                ("register_" +:+ uc_email user_data) st)
    as (Hdb & Hpw & Hem & Hwr).
  destruct (register_limit_ok env user_data st);
    destruct (by_username (uc_username user_data) st) as [u|];
    destruct (by_email (uc_email user_data) st) as [v|];
    destruct (qr_png_base64 L _) as [png|]; simpl;
    repeat split; intros; destruct_and?; try done; eauto;
    try (by match goal with H : is_Some None |- _ => destruct H end);
    try (by match goal with H : ¬ is_Some (Some _) |- _ => destruct H; eauto end);
    by intros [? [=]].
Qed.

(** What a request does to the collection: nothing, or the insertion of
    a new account whose username and e-mail address were not stored, or
    the update of the replay fields of the first account of a name. *)
Lemma handle_db (L : Libs) (r : Request) (st : State) :
  db_users (handle L r st) = db_users st ∨
  (∃ env user_data,
     db_users (handle L r st) = db_users st ++ [new_account env user_data] ∧
     by_username (uc_username user_data) st = None ∧
     by_email (uc_email user_data) st = None) ∨
  (∃ name code time,
     db_users (handle L r st) =
     update_first name (set_last_otp code time) (db_users st)).
Proof.
  destruct r as [env user_data|env request|env name|]; simpl.
  - destruct (register_user_cases L env user_data st)
      as [(_ & -> & _)|(Hres & -> & _)]; [by left|].
    apply register_user_success_inv in Hres as (_ & _ & Hu & Hm & _).
    right. left. eauto.
  - destruct (change_password_db L env request st)
      as [(_ & -> & _)|(_ & -> & _)]; [by left|]. right. right. eauto.
  - left. apply get_qr_code_frame.
  - by left.
Qed.

(** X6: no two stored accounts share a username or an e-mail address:
    every request preserves this, so it holds in every state the server
    reaches from its start. *)
Theorem accounts_stay_unique (L : Libs) :
  (∀ (r : Request) (st : State),
     unique_accounts st → unique_accounts (handle L r st)) ∧
  (∀ reqs : list Request, unique_accounts (run L reqs initial_state)).
Proof.
  assert (Hstep : ∀ (r : Request) (st : State),
            unique_accounts st → unique_accounts (handle L r st)).
  { intros r st [Hnames Hmails]. unfold unique_accounts.
    destruct (handle_db L r st)
      as [->|[(env & user_data & -> & Hu & Hm)|(name & code & time & ->)]].
    - done.
    - rewrite !map_app. simpl. split; apply NoDup_app.
      + split; [done|]. split; [|apply NoDup_singleton].
        intros x Hx ->%list_elem_of_singleton.
        by apply (find_None_not_elem username) in Hu.
      + split; [done|]. split; [|apply NoDup_singleton].
        intros x Hx ->%list_elem_of_singleton.
        by apply (find_None_not_elem email) in Hm.
    - by rewrite !map_update_first. }
  split; [exact Hstep|].
  intros reqs. unfold run.
  assert (Hgen : ∀ st, unique_accounts st →
            unique_accounts (foldl (λ st r, handle L r st) st reqs)).
  { induction reqs as [|r reqs IH]; intros st Hst; [done|].
    simpl. by apply IH, Hstep. }
  apply Hgen. split; simpl; apply NoDup_nil; done.
Qed.

Lemma accounts_stay_unique_witness :
  unique_accounts rotated.
Proof.
  destruct (accounts_stay_unique fixture_libs) as [Hstep _].
  apply (Hstep (ReqChangePassword enroll_env
                  (mkPasswordChangeRequest "alice" "516922" "longenough1"))
               enrolled).
  split; vm_compute; apply NoDup_singleton.
Defined.

(** X7: a successful registration can be read back: looking the new
    username up, and looking the new e-mail address up, both yield the
    account just created, with the generated secret, active, with both
    replay fields null, and with the creation time in whole milliseconds
    (the precision the collection keeps), less than a millisecond before
    the time the handler read. *)
Theorem register_then_find (L : Libs) (env : Env) (user_data : UserCreate)
    (st : State) :
  (register_user L env user_data st).2 = Return (register_response user_data) →
  let st' := (register_user L env user_data st).1 in
  by_username (uc_username user_data) st' = Some (new_account env user_data) ∧
  by_email (uc_email user_data) st' = Some (new_account env user_data) ∧
  totp_secret (new_account env user_data) = generate_totp_secret env ∧
  is_active (new_account env user_data) = true ∧
  last_otp_used (new_account env user_data) = None ∧
  last_otp_time (new_account env user_data) = None ∧
  created_at (new_account env user_data) = utcnow env / 1000 * 1000 ∧
  utcnow env - 1000 < created_at (new_account env user_data) ≤ utcnow env.
Proof.
  intros Hreg st'. subst st'.
  apply register_user_success_inv in Hreg as (_ & _ & _ & _ & _ & _ & Hu & Hm).
  repeat (split; [done|]). simpl. unfold to_millis.
  pose proof (Z.div_mod (utcnow env) 1000 ltac:(lia)).
  pose proof (Z.mod_pos_bound (utcnow env) 1000 ltac:(lia)). lia.
Qed.

Lemma register_then_find_witness :
  by_username "alice" enrolled = Some alice ∧
  created_at alice = 1700000000123000 ∧
  utcnow enroll_env = 1700000000123456.
Proof.
  destruct (register_then_find fixture_libs enroll_env
              (mkUserCreate "alice" "a@x.com") initial_state)
    as (Hfind & _); [vm_compute; reflexivity|].
  split; [exact Hfind|]. split; reflexivity.
Defined.

(** X8: stored accounts are never removed, reordered, or altered outside
    their replay fields: after any requests the accounts stored before are
    still the first accounts of the collection, each with the same id,
    username, e-mail address, secret, active flag and creation time. *)
Theorem accounts_only_appended (L : Libs) (reqs : list Request) (st : State) :
  ∃ added : list User,
    map account_identity (db_users (run L reqs st)) =
    map account_identity (db_users st) ++ map account_identity added.
Proof.
  revert st. unfold run. induction reqs as [|r reqs IH]; intros st; simpl.
  - exists []. by rewrite app_nil_r.
  - destruct (IH (handle L r st)) as [added ->].
    destruct (handle_db L r st)
      as [->|[(env & user_data & -> & _)|(name & code & time & ->)]].
    + by exists added.
    + exists (new_account env user_data :: added).
      by rewrite map_app, <-app_assoc.
    + exists added. by rewrite map_update_first.
Qed.

(** A stored account stays the one its username finds, with the same
    identity fields, under every request and so under every sequence. *)
Lemma handle_by_username (L : Libs) (r : Request) (st : State)
    (name : string) (u : User) :
  by_username name st = Some u →
  ∃ u', by_username name (handle L r st) = Some u' ∧
        account_identity u' = account_identity u.
Proof.
  intros Hu. unfold by_username in *.
  destruct (handle_db L r st)
    as [->|[(env & user_data & -> & _)|(name0 & code & time & ->)]].
  - eauto.
  - rewrite (find_snoc username), Hu. eauto.
  - destruct (decide (name = name0)) as [->|Hne].
    + rewrite find_update_first by done. rewrite Hu. simpl. eauto.
    + rewrite find_update_first_ne by done. eauto.
Qed.

Lemma run_by_username (L : Libs) (reqs : list Request) (st : State)
    (name : string) (u : User) :
  by_username name st = Some u →
  ∃ u', by_username name (run L reqs st) = Some u' ∧
        account_identity u' = account_identity u.
Proof.
  revert st u. unfold run. induction reqs as [|r reqs IH]; intros st u Hu; simpl.
  - eauto.
  - destruct (handle_by_username L r st name u Hu) as (u1 & Hu1 & Hid1).
    destruct (IH _ _ Hu1) as (u2 & Hu2 & Hid2).
    exists u2. split; [done|congruence].
Qed.

(** X9: every account the server ever stores is active, and no route
    changes that flag; so in every state reached from the start, a
    password change is never rejected with "User account is disabled". *)
Theorem disabled_is_unreachable (L : Libs) (reqs : list Request) :
  Forall (λ u, is_active u = true) (db_users (run L reqs initial_state)) ∧
  ∀ (env : Env) (request : PasswordChangeRequest),
    (change_password L env request (run L reqs initial_state)).2 ≠ Raise Disabled.
Proof.
  assert (Hact : Forall (λ u, is_active u = true)
                   (db_users (run L reqs initial_state))).
  { unfold run.
    assert (Hgen : ∀ st, Forall (λ u, is_active u = true) (db_users st) →
              Forall (λ u, is_active u = true)
                (db_users (foldl (λ st r, handle L r st) st reqs))).
    { induction reqs as [|r reqs IH]; intros st Hst; [done|].
      simpl. apply IH.
      destruct (handle_db L r st)
        as [->|[(env & user_data & -> & _)|(name & code & time & ->)]].
      - done.
      - apply Forall_app. split; [done|]. by repeat constructor.
      - by apply Forall_update_first. }
    apply Hgen. constructor. }
  split; [exact Hact|].
  intros env request. rewrite change_password_eq. cbv zeta.
  destruct (limit_ok _ _ _); simpl; [|discriminate].
  destruct (lookup_account request _) as [user|] eqn:Hfind; [|discriminate].
  apply (find_Some_elem username) in Hfind as [Hin _].
  rewrite Forall_forall in Hact. rewrite (Hact user Hin). simpl.
  repeat (case_match; simpl; try discriminate).
Qed.

(** X10: a registered username stays taken: after a successful
    registration and whatever requests follow, a registration with that
    username which the rate limiter admits fails with "Username already
    exists", and stores nothing. *)
Theorem username_stays_taken (L : Libs) (env : Env) (user_data : UserCreate)
    (st : State) (reqs : list Request) (env' : Env) (user_data' : UserCreate) :
  (register_user L env user_data st).2 = Return (register_response user_data) →
  uc_username user_data' = uc_username user_data →
  let st' := run L reqs (register_user L env user_data st).1 in
  register_limit_ok env' user_data' st' = true →
  (register_user L env' user_data' st').2 = Raise DuplicateUsername ∧
  db_users (register_user L env' user_data' st').1 = db_users st'.
Proof.
  intros Hreg Hname st' Hlim.
  assert (Hfound : is_Some (by_username (uc_username user_data') st')).
  { rewrite Hname. subst st'.
    apply register_user_success_inv in Hreg
      as (_ & _ & _ & _ & _ & _ & Hnew & _).
    destruct (run_by_username L reqs _ _ _ Hnew) as (u' & -> & _). eauto. }
  rewrite register_user_eq. cbv zeta. rewrite Hlim. simpl.
  destruct Hfound as [u Hu]. rewrite Hu. simpl.
  split; [done|].
  apply (check_rate_limit_frame (time_time env')
           ("register_" +:+ uc_email user_data') st').
Qed.

Lemma username_stays_taken_witness :
  (register_user fixture_libs (later false) (mkUserCreate "alice" "b@y.com")
     rotated).2 = Raise DuplicateUsername.
Proof.
  apply (username_stays_taken fixture_libs enroll_env
           (mkUserCreate "alice" "a@x.com") initial_state
           [ReqChangePassword enroll_env
              (mkPasswordChangeRequest "alice" "516922" "longenough1")]
           (later false) (mkUserCreate "alice" "b@y.com"));
    [vm_compute; reflexivity | reflexivity | vm_compute; reflexivity].
Defined.

(** ** Requests and the rate limiter *)

(** A request changes the ledgers as one call of the rate limiter on its
    key does, and it is answered 429 exactly when that call is denied. *)
Lemma handle_limiter (L : Libs) (r : Request) (st : State) :
  match limiter_call r with
  | Some (key, now) =>
      rate_limit_storage (handle L r st) =
        rate_limit_storage (check_rate_limit now key st).1 ∧
      (status_of L r st = 429 ↔ (check_rate_limit now key st).2 = false)
  | None =>
      rate_limit_storage (handle L r st) = rate_limit_storage st ∧
      status_of L r st ≠ 429
  end.
Proof.
  destruct r as [env user_data|env request|env name|]; simpl.
  - rewrite register_user_eq. cbv zeta. unfold register_limit_ok.
    destruct (check_rate_limit _ _ st) as [st1 [|]]; simpl;
      [|by split].
    repeat (case_match; simpl; try done).
  - rewrite change_password_eq. cbv zeta. unfold limit_ok, after_limit.
    destruct (check_rate_limit _ _ st) as [st1 [|]]; simpl;
      [|by split].
    repeat (case_match; simpl; try done).
  - rewrite get_qr_code_eq. cbv zeta. unfold qr_limit_ok.
    destruct (check_rate_limit _ _ st) as [st1 [|]]; simpl;
      [|by split].
    repeat (case_match; simpl; try done).
  - split; [done|]. by case_match.
Qed.

(** Requests on one key, all within a window shorter than an hour, are
    all recorded as long as the ledger holds fewer than five readings. *)
Lemma run_same_key (L : Libs) (key : string) (lo hi : Z) (reqs : list Request) :
  hi - lo < 3600 →
  ∀ (st : State),
    Forall (λ t, lo ≤ t ≤ hi) (attempts_of st key) →
    Forall (λ r, ∃ t, limiter_call r = Some (key, t) ∧ lo ≤ t ≤ hi) reqs →
    (length (attempts_of st key) + length reqs ≤ 5)%nat →
    Forall (λ t, lo ≤ t ≤ hi) (attempts_of (run L reqs st) key) ∧
    length (attempts_of (run L reqs st) key) =
      (length (attempts_of st key) + length reqs)%nat.
Proof.
  intros Hwin. unfold run.
  induction reqs as [|r reqs IH]; intros st Hst Hreqs Hlen; simpl.
  - split; [done|lia].
  - apply Forall_cons in Hreqs as [(t & Hcall & Ht) Hreqs]. simpl in Hlen.
    pose proof (handle_limiter L r st) as Hr. rewrite Hcall in Hr.
    destruct Hr as [Hsto _].
    assert (Hyoung : Forall (λ x, t - x < 3600) (attempts_of st key)).
    { eapply Forall_impl; [exact Hst|]. simpl. intros x ?. lia. }
    assert (Hled : attempts_of (handle L r st) key = attempts_of st key ++ [t]).
    { rewrite (attempts_of_storage _ _ _ Hsto).
      rewrite check_rate_limit_young by done.
      rewrite decide_False by lia. simpl. apply attempts_of_set. }
    destruct (IH (handle L r st)) as [Hall Hcount].
    + rewrite Hled. apply Forall_app. split; [done|]. by apply Forall_singleton.
    + done.
    + rewrite Hled, length_app. simpl. lia.
    + split; [done|]. rewrite Hcount, Hled, length_app. simpl. lia.
Qed.

(** X11: five requests per key and hour, on every rate-limited route.
    When six requests with the same rate-limit key (registrations for one
    e-mail address, password changes or QR code requests for one username)
    arrive within a window shorter than 3600 seconds, starting with an
    empty ledger for that key, none of the first five is answered 429 and
    the sixth is answered 429, whatever else the requests contain; the
    sixth stores nothing and invokes no password change. *)
Theorem sixth_request_rate_limited (L : Libs) (st : State)
    (reqs : list Request) (r : Request) (key : string) (now lo hi : Z) :
  attempts_of st key = [] →
  length reqs = 5%nat →
  Forall (λ r', ∃ t, limiter_call r' = Some (key, t) ∧ lo ≤ t ≤ hi) reqs →
  limiter_call r = Some (key, now) →
  lo ≤ now ≤ hi →
  hi - lo < 3600 →
  (∀ (k : nat) (r' : Request),
     reqs !! k = Some r' → status_of L r' (run L (take k reqs) st) ≠ 429) ∧
  status_of L r (run L reqs st) = 429 ∧
  db_users (handle L r (run L reqs st)) = db_users (run L reqs st) ∧
  passwd_calls (handle L r (run L reqs st)) = passwd_calls (run L reqs st).
Proof.
  intros Hempty Hlen Hreqs Hcall Hnow Hwin.
  assert (Hstart : Forall (λ t, lo ≤ t ≤ hi) (attempts_of st key))
    by (rewrite Hempty; constructor).
  assert (Hdecide : ∀ (taken : list Request) (r' : Request) (t : Z),
            Forall (λ r', ∃ t, limiter_call r' = Some (key, t) ∧ lo ≤ t ≤ hi)
                   taken →
            (length taken ≤ 5)%nat →
            limiter_call r' = Some (key, t) → lo ≤ t ≤ hi →
            (status_of L r' (run L taken st) = 429 ↔ length taken = 5%nat) ∧
            (check_rate_limit t key (run L taken st)).2 =
              bool_decide (length taken < 5)%nat).
  { intros taken r' t Htaken Hshort Hcall' Ht.
    destruct (run_same_key L key lo hi taken Hwin st Hstart Htaken)
      as [Hall Hcount]; [rewrite Hempty; simpl; lia|].
    rewrite Hempty in Hcount. simpl in Hcount.
    pose proof (handle_limiter L r' (run L taken st)) as Hr.
    rewrite Hcall' in Hr. destruct Hr as [_ Hstatus].
    assert (Hyoung : Forall (λ x, t - x < 3600) (attempts_of (run L taken st) key)).
    { eapply Forall_impl; [exact Hall|]. simpl. intros x ?. lia. }
    rewrite Hstatus, check_rate_limit_young by done. rewrite Hcount.
    case_decide; simpl.
    - rewrite bool_decide_false by lia. split; [|done]. split; [lia|done].
    - rewrite bool_decide_true by lia. split; [|done]. split; [done|lia]. }
  split; [|split].
  - intros k r' Hk.
    pose proof (lookup_lt_Some _ _ _ Hk) as Hklt.
    assert (Hr' : ∃ t, limiter_call r' = Some (key, t) ∧ lo ≤ t ≤ hi).
    { rewrite Forall_forall in Hreqs. apply Hreqs.
      by apply list_elem_of_lookup_2 in Hk. }
    destruct Hr' as (t & Hcall' & Ht).
    destruct (Hdecide (take k reqs) r' t) as [Hst _]; try done.
    + by apply Forall_take.
    + rewrite length_take. lia.
    + rewrite Hst, length_take. lia.
  - destruct (Hdecide reqs r now) as [Hst _]; try done; [lia|].
    by apply Hst.
  - destruct (Hdecide reqs r now) as [_ Hden]; try done; [lia|].
    rewrite bool_decide_false in Hden by lia.
    destruct r as [env user_data|env request|env name|]; simplify_eq/=.
    + rewrite register_user_eq. cbv zeta. unfold register_limit_ok.
      rewrite Hden. simpl.
      pose proof (check_rate_limit_frame (time_time env)
                    ("register_" +:+ uc_email user_data) (run L reqs st)) as (Hdb & Hpw & _).
      done.
    + rewrite change_password_eq. cbv zeta. unfold limit_ok, after_limit.
      rewrite Hden. simpl.
      pose proof (check_rate_limit_frame (time_time env)
                    ("change_pass_" +:+ req_username request) (run L reqs st)) as (Hdb & Hpw & _).
      done.
    + rewrite get_qr_code_eq. cbv zeta. unfold qr_limit_ok.
      rewrite Hden. simpl.
      pose proof (check_rate_limit_frame (time_time env)
                    ("qr_code_" +:+ name) (run L reqs st)) as (Hdb & Hpw & _).
      done.
Qed.

Lemma sixth_request_rate_limited_witness :
  status_of fixture_libs
    (ReqChangePassword (later false)
       (mkPasswordChangeRequest "alice" "621651" "longenough1"))
    (run fixture_libs five_guesses enrolled) = 429.
Proof.
  apply (sixth_request_rate_limited fixture_libs enrolled five_guesses
           (ReqChangePassword (later false)
              (mkPasswordChangeRequest "alice" "621651" "longenough1"))
           "change_pass_alice" 1700000010 1700000010 1700000014).
  - vm_compute. reflexivity.
  - reflexivity.
  - repeat (apply Forall_cons; split;
            [eexists; split; [reflexivity|simpl; lia]|]).
    apply Forall_nil. done.
  - reflexivity.
  - lia.
  - lia.
Defined.

(** ** Password change: outcomes and compositions *)

(** Settles the conjuncts of an outcome statement once the checks of the
    handler are decided. *)
Ltac outcome_cases :=
  repeat split; intros; destruct_and?; try done; eauto;
  repeat match goal with
         | H : ∃ _ : dict, _ |- _ => destruct H
         | H : ∃ _ : User, _ |- _ => destruct H
         | H : _ ∨ _ |- _ => destruct H
         | H : _ ∧ _ |- _ => destruct H
         end;
  simplify_eq; try done; try congruence; eauto 10.

(** X12: the outcome of a password change.  It is answered 429 exactly
    when the rate limiter denies it, and "User not found" exactly when it
    is admitted and no account has the username.  It ends in an exception
    that is not an HTTP error exactly when it is admitted, the account is
    found and active, and either the verification raises (a clock before
    second 30) or the code verifies and is the one the account holds as
    last used, whose age cannot be computed.  The password change of the
    system is invoked, once and with the submitted username and password,
    exactly when all checks pass (admitted, account found and active,
    code verified and not the last used one, password of 8 characters or
    more), never before; the call succeeds, and the replay fields are
    updated by one write, exactly when moreover that change goes through.
    No call queues an e-mail. *)
Theorem change_password_outcome (L : Libs) (env : Env)
    (request : PasswordChangeRequest) (st : State) :
  let res := change_password L env request st in
  (res.2 = Raise RateLimited_change ↔ limit_ok env request st = false) ∧
  (res.2 = Raise NotFound ↔
     limit_ok env request st = true ∧ lookup_account request st = None) ∧
  (∀ err, res.2 = Crash err ↔
     limit_ok env request st = true ∧
     ∃ user, lookup_account request st = Some user ∧
       is_active user = true ∧
       (verify_totp L (totp_clock env) (totp_secret user) (otp_code request)
          = inl err ∨
        verify_totp L (totp_clock env) (totp_secret user) (otp_code request)
          = inr true ∧
        reuses_last_code user (otp_code request) = true ∧ err = TypeError)) ∧
  ((∃ resp, res.2 = Return resp) ↔
     checks_pass L env request st = true ∧ passwd_raises env = false) ∧
  passwd_calls res.1 =
    (if checks_pass L env request st
     then passwd_calls st ++ [(req_username request, new_password request)]
     else passwd_calls st) ∧
  db_users res.1 =
    (if checks_pass L env request st && negb (passwd_raises env)
     then update_first (req_username request)
            (set_last_otp (otp_code request) (utcnow env)) (db_users st)
     else db_users st) ∧
  db_writes res.1 =
    (if checks_pass L env request st && negb (passwd_raises env)
     then db_writes st ++ [UpdateOneSet (req_username request)
                             (otp_code request) (utcnow env)]
     else db_writes st) ∧
  email_tasks res.1 = email_tasks st.
Proof.
  intros res. subst res. rewrite change_password_eq. cbv zeta.
  unfold checks_pass.
  pose proof (check_rate_limit_frame (time_time env)
                ("change_pass_" +:+ req_username request) st)
    as (Hdb & Hpw & Hem & Hwr).
  fold (after_limit env request st) in Hdb, Hpw, Hem, Hwr.
  destruct (limit_ok env request st); simpl; [|outcome_cases].
  destruct (lookup_account request st) as [user|]; simpl; [|outcome_cases].
  destruct (is_active user) eqn:Hact; simpl; [|outcome_cases].
  destruct (verify_totp _ _ _ _) as [err0|[|]] eqn:Hver; simpl;
    [outcome_cases| |outcome_cases].
  destruct (reuses_last_code _ _) eqn:Hrep; simpl; [outcome_cases|].
  destruct (decide (len (new_password request) < 8)%nat) as [Hs|Hl].
  - rewrite bool_decide_true by done.
    rewrite (bool_decide_false (8 ≤ _)%nat) by lia. simpl. outcome_cases.
  - rewrite bool_decide_false by done.
    rewrite (bool_decide_true (8 ≤ _)%nat) by lia. simpl.
    destruct (passwd_raises env); simpl; outcome_cases.
Qed.

(** X13: a password change never touches another account: the account
    found for any other username is the same before and after the call,
    whatever its outcome. *)
Theorem change_password_touches_one_account (L : Libs) (env : Env)
    (request : PasswordChangeRequest) (st : State) (other : string) :
  other ≠ req_username request →
  by_username other (change_password L env request st).1 = by_username other st.
Proof.
  intros Hne. unfold by_username.
  destruct (change_password_db L env request st)
    as [(_ & -> & _)|(_ & -> & _)]; [done|].
  by apply find_update_first_ne.
Qed.

Lemma change_password_touches_one_account_witness :
  by_username "bob"
    (change_password fixture_libs (later false)
       (mkPasswordChangeRequest "alice" "621651" "longenough1")
       two_accounts).1
  = by_username "bob" two_accounts.
Proof.
  apply change_password_touches_one_account. discriminate.
Defined.

(** What a successful password change leaves behind. *)
Lemma change_password_success_inv (L : Libs) (env : Env)
    (request : PasswordChangeRequest) (st : State) (resp : dict) :
  (change_password L env request st).2 = Return resp →
  ∃ user,
    lookup_account request st = Some user ∧
    is_active user = true ∧
    ∀ request', req_username request' = req_username request →
      lookup_account request' (change_password L env request st).1 =
      Some (set_last_otp (otp_code request) (utcnow env) user).
Proof.
  rewrite change_password_eq. cbv zeta.
  destruct (limit_ok env request st); simpl; [|done].
  destruct (lookup_account request st) as [user|] eqn:Hfind; [|done].
  destruct (is_active user) eqn:Hact; simpl; [|done].
  destruct (verify_totp _ _ _ _) as [err|[|]]; simpl; [done| |done].
  destruct (reuses_last_code _ _); simpl; [done|].
  case_bool_decide; simpl; [done|].
  destruct (passwd_raises env); simpl; [done|].
  intros _. exists user. split; [done|]. split; [done|].
  intros request' Hname. unfold lookup_account in *. simpl.
  rewrite Hname, find_update_first by done. by rewrite Hfind.
Qed.

(** X14: the code of a successful password change is never accepted
    again for the same account while it is the last used one, however
    much later it is resubmitted: when the rate limiter admits the call,
    it is rejected with "Invalid OTP code" if the code no longer
    verifies, and otherwise ends in the [TypeError] of the age
    computation (or in the error of the verification itself), answered
    500; it is never answered "OTP code already used recently".  In every
    case nothing is stored and the password is not changed again. *)
Theorem immediate_replay_rejected (L : Libs) (env env' : Env)
    (request request' : PasswordChangeRequest) (st : State) (resp : dict)
    (user : User) :
  (change_password L env request st).2 = Return resp →
  lookup_account request st = Some user →
  req_username request' = req_username request →
  otp_code request' = otp_code request →
  let st' := (change_password L env request st).1 in
  limit_ok env' request' st' = true →
  (change_password L env' request' st').2 =
    match verify_totp L (totp_clock env') (totp_secret user)
            (otp_code request') with
    | inl err => Crash err
    | inr true => Crash TypeError
    | inr false => Raise InvalidCode
    end ∧
  (∀ resp', (change_password L env' request' st').2 ≠ Return resp') ∧
  (change_password L env' request' st').2 ≠ Raise ReplayedCode ∧
  http_status (change_password L env' request' st').2 ∈ [400; 500] ∧
  passwd_calls (change_password L env' request' st').1 = passwd_calls st' ∧
  db_users (change_password L env' request' st').1 = db_users st' ∧
  db_writes (change_password L env' request' st').1 = db_writes st'.
Proof.
  intros Hok Hfind Hname Hcode st' Hlim. subst st'.
  destruct (change_password_success_inv L env request st resp Hok)
    as (user0 & Hfind0 & Hact & Hafter).
  assert (user0 = user) as -> by congruence.
  pose proof (check_rate_limit_frame (time_time env')
                ("change_pass_" +:+ req_username request')
                (change_password L env request st).1) as (Hdb & Hpw & _ & Hwr).
  rewrite change_password_eq. cbv zeta.
  rewrite Hlim, (Hafter request' Hname). simpl. rewrite Hact. simpl.
  assert (Hrep : reuses_last_code
                   (set_last_otp (otp_code request) (utcnow env) user)
                   (otp_code request') = true).
  { apply reuses_last_code_true. simpl. rewrite Hcode. eauto. }
  rewrite Hrep. unfold after_limit.
  destruct (verify_totp _ _ _ _) as [err|[|]]; simpl;
    rewrite !elem_of_cons; repeat split; auto; done.
Qed.

Lemma immediate_replay_rejected_witness :
  (change_password fixture_libs (later false)
     (mkPasswordChangeRequest "alice" "516922" "longenough2") rotated).2
  = Crash TypeError.
Proof.
  destruct (immediate_replay_rejected fixture_libs enroll_env (later false)
              (mkPasswordChangeRequest "alice" "516922" "longenough1")
              (mkPasswordChangeRequest "alice" "516922" "longenough2")
              enrolled
              (<["status" := VStr "success"]>
               (<["message" := VStr "Password changed successfully"]>
               (<["timestamp" := VStr "utc:1700000000123456"]> ∅)))
              alice)
    as (Hres & _);
    [vm_compute; reflexivity | vm_compute; reflexivity | reflexivity
    | reflexivity | vm_compute; reflexivity |].
  exact Hres.
Defined.

(** X15: the replay guard is an exact match.  After a successful
    password change, a later call for the same account whose code differs
    from the one just used is not held back by the guard: if the code
    verifies, the rate limiter admits the call, the password has 8
    characters or more and the change goes through, the call succeeds,
    and the account then holds the new code as last used. *)
Theorem other_code_after_success_accepted (L : Libs) (env env' : Env)
    (request request' : PasswordChangeRequest) (st : State) (resp : dict)
    (user : User) :
  (change_password L env request st).2 = Return resp →
  lookup_account request st = Some user →
  req_username request' = req_username request →
  otp_code request' ≠ otp_code request →
  let st' := (change_password L env request st).1 in
  limit_ok env' request' st' = true →
  verify_totp L (totp_clock env') (totp_secret user) (otp_code request')
    = inr true →
  (8 ≤ len (new_password request'))%nat →
  passwd_raises env' = false →
  (∃ resp', (change_password L env' request' st').2 = Return resp') ∧
  lookup_account request' (change_password L env' request' st').1 =
    Some (set_last_otp (otp_code request') (utcnow env') user).
Proof.
  intros Hok Hfind Hname Hfree st' Hlim Hver Hlen Hgo. subst st'.
  destruct (change_password_success_inv L env request st resp Hok)
    as (user0 & Hfind0 & Hact & Hafter).
  assert (user0 = user) as -> by congruence.
  assert (Hrep : reuses_last_code
                   (set_last_otp (otp_code request) (utcnow env) user)
                   (otp_code request') = false).
  { unfold reuses_last_code. simpl.
    by rewrite bool_decide_false by congruence. }
  assert (Hres : ∃ resp', (change_password L env' request'
                   (change_password L env request st).1).2 = Return resp').
  { rewrite change_password_eq. cbv zeta.
    rewrite Hlim, (Hafter request' Hname). simpl. rewrite Hact, Hver. simpl.
    rewrite Hrep. rewrite bool_decide_false by lia. rewrite Hgo. simpl. eauto. }
  split; [exact Hres|]. destruct Hres as [resp' Hresp'].
  destruct (change_password_success_inv L env' request' _ resp' Hresp')
    as (user1 & Hfind1 & _ & Hafter1).
  rewrite (Hafter request' Hname) in Hfind1. injection Hfind1 as <-.
  by rewrite (Hafter1 request' eq_refl).
Qed.

Lemma other_code_after_success_accepted_witness :
  ∃ resp',
    (change_password fixture_libs (later false)
       (mkPasswordChangeRequest "alice" "621651" "longenough2") rotated).2
    = Return resp'.
Proof.
  apply (other_code_after_success_accepted fixture_libs enroll_env
           (later false)
           (mkPasswordChangeRequest "alice" "516922" "longenough1")
           (mkPasswordChangeRequest "alice" "621651" "longenough2")
           enrolled
           (<["status" := VStr "success"]>
            (<["message" := VStr "Password changed successfully"]>
            (<["timestamp" := VStr "utc:1700000000123456"]> ∅)))
           alice);
    [vm_compute; reflexivity | vm_compute; reflexivity | reflexivity
    | discriminate | vm_compute; reflexivity | vm_compute; reflexivity
    | simpl; lia | reflexivity].
Defined.

(** X16: a password change with a password shorter than 8 characters for
    a stored username, admitted by the rate limiter, is answered with
    status 400 when the account is disabled, when the code does not
    verify, and when the code verifies and is not the one the account
    holds as last used; on an active account it is answered 500 when the
    verification raises or the code verifies and is the last used one.
    In every case nothing is stored and the password is not changed. *)
Theorem short_password_status_400 (L : Libs) (env : Env)
    (request : PasswordChangeRequest) (st : State) (user : User) :
  lookup_account request st = Some user →
  (len (new_password request) < 8)%nat →
  limit_ok env request st = true →
  let verified :=
    verify_totp L (totp_clock env) (totp_secret user) (otp_code request) in
  (is_active user = false ∨ verified = inr false ∨
   verified = inr true ∧ reuses_last_code user (otp_code request) = false →
   http_status (change_password L env request st).2 = 400) ∧
  (is_active user = true →
   (∃ err, verified = inl err) ∨
   verified = inr true ∧ reuses_last_code user (otp_code request) = true →
   http_status (change_password L env request st).2 = 500) ∧
  db_users (change_password L env request st).1 = db_users st ∧
  db_writes (change_password L env request st).1 = db_writes st ∧
  passwd_calls (change_password L env request st).1 = passwd_calls st.
Proof.
  intros Hfind Hshort Hlim verified. subst verified.
  pose proof (check_rate_limit_frame (time_time env)
                ("change_pass_" +:+ req_username request) st)
    as (Hdb & Hpw & _ & Hwr).
  fold (after_limit env request st) in Hdb, Hpw, Hwr.
  rewrite change_password_eq. cbv zeta. rewrite Hlim, Hfind. simpl.
  rewrite (bool_decide_true _ Hshort).
  destruct (is_active user), (verify_totp _ _ _ _) as [err|[|]],
    (reuses_last_code _ _); simpl;
    repeat split; try done; intros; destruct_or?; destruct_and?;
    try done; by match goal with H : ∃ _, _ |- _ => destruct H end.
Qed.

Lemma short_password_status_400_witness :
  http_status (change_password fixture_libs (later false)
                 (mkPasswordChangeRequest "alice" "123456" "short")
                 enrolled).2 = 400.
Proof.
  destruct (short_password_status_400 fixture_libs (later false)
              (mkPasswordChangeRequest "alice" "123456" "short") enrolled alice)
    as (H400 & _);
    [vm_compute; reflexivity | simpl; lia | vm_compute; reflexivity |].
  apply H400. right. left. vm_compute. reflexivity.
Defined.

(** ** The QR code route *)

(** X17: the outcome of a QR code request.  It is answered 429 exactly
    when the rate limiter denies it and "User not found" exactly when it
    is admitted and no account has the username; otherwise it returns the
    stored secret of the account and the QR code of its provisioning URI,
    without any code being asked for and whether or not the account is
    active (ending in the [DataOverflowError] of the rendering when that
    URI cannot be rendered).  The request stores nothing, sends no write,
    changes no password and queues no e-mail. *)
Theorem get_qr_code_outcome (L : Libs) (env : Env) (name : string) (st : State) :
  let res := get_qr_code L env name st in
  (res.2 = Raise RateLimited_qr ↔ qr_limit_ok env name st = false) ∧
  (res.2 = Raise NotFound ↔
     qr_limit_ok env name st = true ∧ by_username name st = None) ∧
  (∀ user,
     qr_limit_ok env name st = true → by_username name st = Some user →
     res.2 =
       match qr_png_base64 L
               (provisioning_uri (totp_secret user)
                  (name +:+ "@linux-system") "Linux OTP System") with
       | Some png => Return (mkQRCodeResponse png (totp_secret user))
       | None => Crash DataOverflowError
       end) ∧
  db_users res.1 = db_users st ∧
  db_writes res.1 = db_writes st ∧
  passwd_calls res.1 = passwd_calls st ∧
  email_tasks res.1 = email_tasks st.
Proof.
  intros res. subst res. rewrite get_qr_code_eq. cbv zeta.
  pose proof (check_rate_limit_frame (time_time env) ("qr_code_" +:+ name) st)
    as (Hdb & Hpw & Hem & Hwr).
  fold (totp_uri name).
  destruct (qr_limit_ok env name st); simpl;
    [|repeat split; intros; destruct_and?; done].
  destruct (by_username name st) as [user|]; simpl;
    [|repeat split; intros; destruct_and?; simplify_eq; done].
  unfold totp_uri.
  destruct (qr_png_base64 L _) as [png|] eqn:Hqr; simpl;
    repeat split; intros; destruct_and?; simplify_eq; try done;
    by rewrite Hqr.
Qed.

(** X18: the secret of an account is generated once.  After a successful
    registration and whatever requests follow, a QR code request for the
    username that the rate limiter admits returns the secret generated at
    registration and the very QR code that was queued for the e-mail. *)
Theorem qr_code_after_registration (L : Libs) (env : Env)
    (user_data : UserCreate) (st : State) (reqs : list Request) (env' : Env) :
  (register_user L env user_data st).2 = Return (register_response user_data) →
  let st' := run L reqs (register_user L env user_data st).1 in
  qr_limit_ok env' (uc_username user_data) st' = true →
  ∃ png,
    email_tasks (register_user L env user_data st).1 =
      email_tasks st ++ [mkEmailTask (uc_email user_data)
                           "Linux OTP Sistemi - QR Kodu"
                           (uc_username user_data) png] ∧
    (get_qr_code L env' (uc_username user_data) st').2 =
      Return (mkQRCodeResponse png (generate_totp_secret env)).
Proof.
  intros Hreg st' Hlim. subst st'.
  apply register_user_success_inv in Hreg
    as (_ & _ & _ & _ & (png & Hqr & Htask) & _ & Hnew & _).
  exists png. split; [exact Htask|].
  destruct (run_by_username L reqs _ _ _ Hnew) as (u' & Hu' & Hid).
  rewrite get_qr_code_eq. cbv zeta. rewrite Hlim, Hu'. simpl.
  unfold account_identity in Hid. simpl in Hid.
  injection Hid as _ _ _ _ Hsecret _ _.
  unfold generate_totp_secret in *. by rewrite Hsecret, Hqr.
Qed.

Lemma qr_code_after_registration_witness :
  ∃ png,
    (get_qr_code fixture_libs (later false) "alice" rotated).2 =
    Return (mkQRCodeResponse png alice_secret).
Proof.
  destruct (qr_code_after_registration fixture_libs enroll_env
              (mkUserCreate "alice" "a@x.com") initial_state
              [ReqChangePassword enroll_env
                 (mkPasswordChangeRequest "alice" "516922" "longenough1")]
              (later false))
    as (png & _ & Hres); [vm_compute; reflexivity | vm_compute; reflexivity |].
  exists png. exact Hres.
Defined.

(** ** Routes side by side *)

(** X19: the three rate-limited routes keep separate ledgers: handling a
    request of one route changes neither the ledger that a request of
    another route is checked against nor the decision it would get. *)
Theorem routes_limited_independently (L : Libs) (r1 r2 : Request) (st : State)
    (key : string) (now : Z) :
  same_route r1 r2 = false →
  limiter_call r2 = Some (key, now) →
  attempts_of (handle L r1 st) key = attempts_of st key ∧
  (check_rate_limit now key (handle L r1 st)).2 = (check_rate_limit now key st).2.
Proof.
  intros Hroutes Hcall.
  assert (Hled : attempts_of (handle L r1 st) key = attempts_of st key).
  { pose proof (handle_limiter L r1 st) as Hr1.
    destruct (limiter_call r1) as [[key1 now1]|] eqn:Hcall1.
    - destruct Hr1 as [Hsto _]. rewrite (attempts_of_storage _ _ _ Hsto).
      apply check_rate_limit_other.
      destruct r1, r2; simpl in *; simplify_eq; discriminate.
    - destruct Hr1 as [Hsto _]. by apply attempts_of_storage. }
  split; [exact Hled|].
  by destruct (check_rate_limit_ext now key (handle L r1 st) st Hled).
Qed.

Lemma routes_limited_independently_witness :
  (check_rate_limit 1700000010 "qr_code_alice"
     (handle fixture_libs (guess 0) enrolled)).2 =
  (check_rate_limit 1700000010 "qr_code_alice" enrolled).2.
Proof.
  apply (routes_limited_independently fixture_libs (guess 0)
           (ReqQrCode (later false) "alice") enrolled);
    reflexivity.
Defined.

(** ** The accounts listing *)

(** X20: the accounts listing needs no admission and leaves the state as
    it is.  Its handler returns the stored accounts in insertion order,
    at most the first 1000 of them, each with its id, username, e-mail
    address, active flag and creation time, and each still with the
    [_id] of the collection, an [ObjectId].  That value cannot be encoded
    in the response: the route is answered 200 when no account is
    stored, and 500 as soon as one is. *)
Theorem get_users_listing (L : Libs) (st : State) :
  ∃ docs : list dict,
    get_users st = (st, Return docs) ∧
    length docs = Nat.min 1000 (length (db_users st)) ∧
    (∀ (i : nat) (d : dict),
       docs !! i = Some d →
       ∃ u, db_users st !! i = Some u ∧
            d !! "_id" = Some (VObjectId (_id u)) ∧
            d !! "id" = Some (VStr (user_id u)) ∧
            d !! "username" = Some (VStr (username u)) ∧
            d !! "email" = Some (VStr (email u)) ∧
            d !! "is_active" = Some (VBool (is_active u)) ∧
            d !! "created_at" = Some (VTime (created_at u))) ∧
    status_of L ReqUsers st = (if decide (db_users st = []) then 200 else 500).
Proof.
  unfold status_of, get_users. eexists. split; [reflexivity|].
  split; [by rewrite length_map, length_take|]. split.
  - intros i d Hd. rewrite list_lookup_fmap in Hd.
    destruct (take 1000 (db_users st) !! i) as [u|] eqn:Hu; [|done].
    simpl in Hd. injection Hd as <-.
    exists u. split.
    + rewrite lookup_take_Some in Hu. by destruct Hu.
    + unfold document, User_dict. by simplify_map_eq.
  - cbn [snd]. destruct (db_users st) as [|u users]; [done|].
    rewrite decide_False by done.
    change (take 1000 (u :: users)) with (u :: take 999 users).
    cbn [map forallb]. rewrite bool_decide_false; [done|].
    intros Hall.
    specialize (Hall "_id" (VObjectId (_id u))). simpl in Hall.
    assert (Hid : delete "last_otp_used" (delete "totp_secret" (document u))
                  !! "_id" = Some (VObjectId (_id u)))
      by (unfold document, User_dict; by simplify_map_eq).
    by specialize (Hall Hid).
Qed.

(** ** Effects recorded over the life of the server *)

(** Closes the goal of [handle_effects] for a request without effect. *)
Ltac no_effect := split; [left; split; [done|by left]|by left].

(** What a request adds to the e-mail queue and to the password log. *)
Lemma handle_effects (L : Libs) (r : Request) (st : State) :
  (email_tasks (handle L r st) = email_tasks st ∧
   (db_users (handle L r st) = db_users st ∨
    ∃ name code time,
      db_users (handle L r st) =
      update_first name (set_last_otp code time) (db_users st)) ∨
   ∃ env user_data,
     email_tasks (handle L r st) =
       email_tasks st ++ [task_for L (new_account env user_data)] ∧
     db_users (handle L r st) = db_users st ++ [new_account env user_data] ∧
     qr_renders L (uc_username user_data) (generate_totp_secret env)) ∧
  (passwd_calls (handle L r st) = passwd_calls st ∨
   ∃ name password,
     passwd_calls (handle L r st) = passwd_calls st ++ [(name, password)] ∧
     is_Some (by_username name st) ∧ (8 ≤ len password)%nat).
Proof.
  destruct r as [env user_data|env request|env name|]; simpl.
  - rewrite register_user_eq. cbv zeta.
    pose proof (check_rate_limit_frame (time_time env)
                  ("register_" +:+ uc_email user_data) st)
      as (Hdb & Hpw & Hem & Hwr).
    destruct (register_limit_ok env user_data st); simpl; [|no_effect].
    destruct (bool_decide _); simpl; [no_effect|].
    destruct (bool_decide _); simpl; [no_effect|].
    destruct (qr_png_base64 L _) as [png|] eqn:Hqr; simpl; [|no_effect].
    split; [right|by left]. exists env, user_data.
    unfold task_for, qr_renders, generate_totp_secret in *. simpl.
    rewrite Hqr. simpl. eauto.
  - rewrite change_password_eq. cbv zeta.
    pose proof (check_rate_limit_frame (time_time env)
                  ("change_pass_" +:+ req_username request) st)
      as (Hdb & Hpw & Hem & Hwr).
    fold (after_limit env request st) in Hdb, Hpw, Hem, Hwr.
    destruct (limit_ok env request st); simpl; [|no_effect].
    destruct (lookup_account request st) as [user|] eqn:Hfind; [|no_effect].
    destruct (is_active user); simpl; [|no_effect].
    destruct (verify_totp _ _ _ _) as [err|[|]]; simpl;
      [no_effect| |no_effect].
    destruct (reuses_last_code _ _); simpl; [no_effect|].
    case_bool_decide; simpl; [no_effect|].
    assert (is_Some (by_username (req_username request) st)) by eauto.
    destruct (passwd_raises env); simpl.
    + split; [left; split; [done|by left]|].
      right. eexists _, _. split; [done|]. split; [done|lia].
    + split; [left; split; [done|]; right; eauto|].
      right. eexists _, _. split; [done|]. split; [done|lia].
  - rewrite get_qr_code_eq. cbv zeta.
    pose proof (check_rate_limit_frame (time_time env) ("qr_code_" +:+ name) st)
      as (Hdb & Hpw & Hem & Hwr).
    destruct (qr_limit_ok env name st); simpl; [|no_effect].
    destruct (by_username name st); [|no_effect].
    destruct (qr_png_base64 L _); no_effect.
  - no_effect.
Qed.

(** X21: in every state reached from the start, the queued e-mails are,
    in order, one per stored account: addressed to the account's e-mail
    address, for its username, carrying the QR code of its secret, which
    can be rendered for every stored account.  No e-mail is queued for an
    account that was not stored, and none twice. *)
Theorem one_email_per_account (L : Libs) (reqs : list Request) :
  email_tasks (run L reqs initial_state) =
    map (task_for L) (db_users (run L reqs initial_state)) ∧
  Forall (λ u, qr_renders L (username u) (totp_secret u))
         (db_users (run L reqs initial_state)).
Proof.
  unfold run.
  assert (Hgen : ∀ st,
            email_tasks st = map (task_for L) (db_users st) ∧
            Forall (λ u, qr_renders L (username u) (totp_secret u))
                   (db_users st) →
            email_tasks (foldl (λ st r, handle L r st) st reqs) =
              map (task_for L) (db_users (foldl (λ st r, handle L r st) st reqs)) ∧
            Forall (λ u, qr_renders L (username u) (totp_secret u))
                   (db_users (foldl (λ st r, handle L r st) st reqs))).
  { induction reqs as [|r reqs IH]; intros st Hst; [done|].
    simpl. apply IH. destruct Hst as [Hst Hqr].
    destruct (handle_effects L r st)
      as [[(-> & [->|(name & code & time & ->)])
          |(env & user_data & -> & -> & Hnew)] _].
    - done.
    - split; [by rewrite map_update_first|].
      by apply Forall_update_first.
    - split; [by rewrite map_app, Hst|].
      apply Forall_app. split; [done|]. by apply Forall_singleton. }
  apply Hgen. split; [done|constructor].
Qed.

(** X22: in every state reached from the start, every password change
    the server has invoked names a stored account and sets a password of
    8 characters or more. *)
Theorem only_valid_password_changes (L : Libs) (reqs : list Request) :
  Forall (passwd_call_ok (run L reqs initial_state))
         (passwd_calls (run L reqs initial_state)).
Proof.
  unfold run.
  assert (Hgen : ∀ st, Forall (passwd_call_ok st) (passwd_calls st) →
            Forall (passwd_call_ok (foldl (λ st r, handle L r st) st reqs))
                   (passwd_calls (foldl (λ st r, handle L r st) st reqs))).
  { induction reqs as [|r reqs IH]; intros st Hst; [done|].
    simpl. apply IH.
    assert (Hkeep : ∀ call, passwd_call_ok st call →
                      passwd_call_ok (handle L r st) call).
    { intros call [[u Hu] Hlen]. split; [|done].
      destruct (handle_by_username L r st _ u Hu) as (u' & -> & _). eauto. }
    destruct (handle_effects L r st)
      as [_ [->|(name & password & -> & Hname & Hlen)]].
    - eapply Forall_impl; [exact Hst|exact Hkeep].
    - apply Forall_app. split.
      + eapply Forall_impl; [exact Hst|exact Hkeep].
      + apply Forall_singleton. by apply Hkeep. }
  apply Hgen. constructor.
Qed.

(** ** More compositions *)

(** X23: every code is accepted for 90 seconds: the code of time step
    [k], from the second step on, is accepted at every clock reading from
    the beginning of step [k - 1] up to the end of step [k + 1]. *)
Theorem code_accepted_for_three_steps (L : Libs) (secret : string) (k now : Z) :
  2 ≤ k →
  30 * (k - 1) ≤ now < 30 * (k + 2) →
  verify_totp L now secret (generate_otp L secret k) = inr true.
Proof.
  intros Hk Hnow.
  destruct (timecode_shift now ltac:(lia)) as (_ & _ & Htc).
  destruct (verify_totp_offsets L now secret (generate_otp L secret k))
    as [Hok _].
  rewrite (Hok Htc). clear Hok.
  f_equal. unfold timecode in *.
  assert (Hq : now ÷ 30 = now / 30) by (apply Z.quot_div_nonneg; lia).
  rewrite Hq in *.
  assert (k - 1 ≤ now / 30) by (apply Z.div_le_lower_bound; lia).
  assert (now / 30 < k + 2) by (apply Z.div_lt_upper_bound; lia).
  assert (Hrefl : ∀ s, strings_equal L s s = true)
    by (intros s; by apply bool_decide_eq_true).
  rewrite !orb_true_iff.
  destruct (decide (now / 30 = k - 1)) as [Heq|];
    [right; rewrite Heq; replace (k - 1 + 1) with k by lia; apply Hrefl|].
  destruct (decide (now / 30 = k)) as [->|];
    [left; right; apply Hrefl|].
  left. left. replace (now / 30 - 1) with k by lia. apply Hrefl.
Qed.

Lemma code_accepted_for_three_steps_witness :
  verify_totp fixture_libs 1700000069 alice_secret
    (generate_otp fixture_libs alice_secret 56666667) = inr true.
Proof.
  apply code_accepted_for_three_steps; lia.
Defined.

(** X24: a fresh account can change its password at once: after a
    successful registration, a password change for the new username which
    the rate limiter admits, with a code that verifies against the
    generated secret and a password of 8 characters or more, succeeds when
    the system change goes through, and the account then holds the code
    and the time of the call in whole milliseconds. *)
Theorem first_change_after_registration (L : Libs) (env env' : Env)
    (user_data : UserCreate) (request : PasswordChangeRequest) (st : State) :
  (register_user L env user_data st).2 = Return (register_response user_data) →
  req_username request = uc_username user_data →
  let st' := (register_user L env user_data st).1 in
  limit_ok env' request st' = true →
  verify_totp L (totp_clock env') (generate_totp_secret env) (otp_code request)
    = inr true →
  (8 ≤ len (new_password request))%nat →
  passwd_raises env' = false →
  (∃ resp, (change_password L env' request st').2 = Return resp) ∧
  ∃ user',
    lookup_account request (change_password L env' request st').1 = Some user' ∧
    account_identity user' = account_identity (new_account env user_data) ∧
    last_otp_used user' = Some (otp_code request) ∧
    last_otp_time user' = Some (utcnow env' / 1000 * 1000).
Proof.
  intros Hreg Hname st' Hlim Hver Hlen Hgo. subst st'.
  assert (Hnew : lookup_account request (register_user L env user_data st).1
                 = Some (new_account env user_data)).
  { unfold lookup_account. rewrite Hname.
    by apply register_user_success_inv in Hreg
      as (_ & _ & _ & _ & _ & _ & Hnew & _). }
  rewrite change_password_eq. cbv zeta.
  rewrite Hlim, Hnew. simpl. unfold generate_totp_secret in Hver.
  rewrite Hver. simpl. rewrite bool_decide_false by lia. rewrite Hgo. simpl.
  split; [eauto|].
  exists (set_last_otp (otp_code request) (utcnow env')
            (new_account env user_data)).
  split; [|done].
  unfold lookup_account in *. simpl.
  rewrite find_update_first by done. by rewrite Hnew.
Qed.

Lemma first_change_after_registration_witness :
  ∃ resp,
    (change_password fixture_libs enroll_env
       (mkPasswordChangeRequest "alice" "516922" "longenough1") enrolled).2
    = Return resp.
Proof.
  apply (first_change_after_registration fixture_libs enroll_env enroll_env
           (mkUserCreate "alice" "a@x.com")
           (mkPasswordChangeRequest "alice" "516922" "longenough1")
           initial_state);
    [vm_compute; reflexivity | reflexivity | vm_compute; reflexivity
    | vm_compute; reflexivity | simpl; lia | reflexivity].
Defined.

(** ** The test client *)

(** After fewer than five requests on a key within the window the next
    one is not answered 429; after five it is. *)
Lemma status_after_same_key (L : Libs) (key : string) (lo hi : Z) (st : State)
    (taken : list Request) (r : Request) (t : Z) :
  hi - lo < 3600 →
  attempts_of st key = [] →
  Forall (λ r', ∃ t', limiter_call r' = Some (key, t') ∧ lo ≤ t' ≤ hi) taken →
  (length taken ≤ 5)%nat →
  limiter_call r = Some (key, t) → lo ≤ t ≤ hi →
  (status_of L r (run L taken st) = 429 ↔ length taken = 5%nat).
Proof.
  intros Hwin Hempty Htaken Hshort Hcall Ht.
  destruct (run_same_key L key lo hi taken Hwin st) as [Hall Hcount];
    [rewrite Hempty; constructor|done|rewrite Hempty; simpl; lia|].
  rewrite Hempty in Hcount. simpl in Hcount.
  pose proof (handle_limiter L r (run L taken st)) as Hr.
  rewrite Hcall in Hr. destruct Hr as [_ Hstatus].
  assert (Hyoung : Forall (λ x, t - x < 3600) (attempts_of (run L taken st) key)).
  { eapply Forall_impl; [exact Hall|]. simpl. intros x ?. lia. }
  rewrite Hstatus, check_rate_limit_young by done. rewrite Hcount.
  case_decide; simpl; split; (done || lia).
Qed.

(** X25: the rate-limit test passes against the modelled server: when
    its six registrations for one e-mail address reach a server whose
    list for that address is empty, within a window shorter than 3600
    seconds, the loop ends with the sixth answered 429, and the test is
    logged as passed. *)
Theorem rate_limit_test_passes (L : Libs) (requests : list Request)
    (mail : string) (lo hi : Z) (st : State) (t : Tester) :
  length requests = 6%nat →
  Forall (λ r, ∃ env user_data,
            r = ReqRegister env user_data ∧ uc_email user_data = mail ∧
            lo ≤ time_time env ≤ hi) requests →
  hi - lo < 3600 →
  attempts_of st ("register_" +:+ mail) = [] →
  (test_rate_limiting_registration L requests st t).2 = true ∧
  tests_run (test_rate_limiting_registration L requests st t).1.2 =
    S (tests_run t) ∧
  tests_passed (test_rate_limiting_registration L requests st t).1.2 =
    S (tests_passed t).
Proof.
  intros Hlen Hreqs Hwin Hempty.
  assert (Hkeys : Forall (λ r, ∃ t', limiter_call r =
                                 Some ("register_" +:+ mail, t') ∧ lo ≤ t' ≤ hi)
                         requests).
  { eapply Forall_impl; [exact Hreqs|]. simpl.
    intros r (env & user_data & -> & <- & Henv). simpl. eauto. }
  assert (Hstatus : ∀ (k : nat) (r : Request),
            requests !! k = Some r →
            (status_of L r (run L (take k requests) st) = 429 ↔ k = 5%nat)).
  { intros k r Hk. pose proof (lookup_lt_Some _ _ _ Hk) as Hklt.
    assert (Hr : ∃ t', limiter_call r = Some ("register_" +:+ mail, t')
                       ∧ lo ≤ t' ≤ hi).
    { rewrite Forall_forall in Hkeys. apply Hkeys.
      by apply list_elem_of_lookup_2 in Hk. }
    destruct Hr as (t' & Hcall & Ht').
    rewrite (status_after_same_key L ("register_" +:+ mail) lo hi st
               (take k requests) r t');
      try done.
    - rewrite length_take. lia.
    - by apply Forall_take.
    - rewrite length_take. lia. }
  destruct requests as [|r1 [|r2 [|r3 [|r4 [|r5 [|r6 [|]]]]]]]; try done.
  pose proof (Hstatus 0%nat r1 eq_refl) as H1.
  pose proof (Hstatus 1%nat r2 eq_refl) as H2.
  pose proof (Hstatus 2%nat r3 eq_refl) as H3.
  pose proof (Hstatus 3%nat r4 eq_refl) as H4.
  pose proof (Hstatus 4%nat r5 eq_refl) as H5.
  pose proof (Hstatus 5%nat r6 eq_refl) as H6.
  unfold run in *. simpl in H1, H2, H3, H4, H5, H6.
  unfold test_rate_limiting_registration. simpl.
  rewrite (bool_decide_false (status_of L r1 _ = 429)) by (rewrite H1; lia).
  rewrite (bool_decide_false (status_of L r2 _ = 429)) by (rewrite H2; lia).
  rewrite (bool_decide_false (status_of L r3 _ = 429)) by (rewrite H3; lia).
  rewrite (bool_decide_false (status_of L r4 _ = 429)) by (rewrite H4; lia).
  rewrite (bool_decide_false (status_of L r5 _ = 429)) by (rewrite H5; lia).
  rewrite (bool_decide_true (status_of L r6 _ = 429)) by (by apply H6).
  done.
Qed.

Lemma rate_limit_test_passes_witness :
  (test_rate_limiting_registration fixture_libs six_registrations enrolled
     new_tester).2 = true.
Proof.
  apply (rate_limit_test_passes fixture_libs six_registrations
           "ratelimit@example.com" 1700000100 1700000105 enrolled new_tester).
  - reflexivity.
  - repeat (apply Forall_cons; split;
            [eexists _, _; split; [reflexivity|]; split; [reflexivity|simpl; lia]|]).
    apply Forall_nil. done.
  - lia.
  - vm_compute. reflexivity.
Defined.
